(** * The CI workflow and the Pegasos tutorial notebook, as data with their
      run-time reading.

    The repository holds two artefacts: the workflow file
    [.github/workflows/main.yml] ("Machine Learning Unit Tests") and the
    notebook [docs/tutorials/07_pegasos_qsvc.ipynb].  Both are embedded
    here as data, next to the rules by which the hosted runner (for the
    workflow) and the estimator interface (for the notebook) read them. *)

From Stdlib Require Import String Ascii List Bool Arith Lia.
Import ListNotations.
Open Scope string_scope.
Open Scope list_scope.
Open Scope nat_scope.

Set Warnings "-register-all,-abstract-large-number".

(* ===================================================================== *)
(** ** Scalars: decimal numbers, strings, booleans                        *)
(* ===================================================================== *)

Module Scalar.

(** A decimal number [mant / 10^scale].  YAML reads the plain scalar
    [3.9] as a number; the expression language renders it back without
    trailing zeros. *)
Record dec := mkDec { mant : nat; scale : nat }.

Fixpoint normalize (m sc : nat) : dec :=
  match sc with
  | 0 => mkDec m 0
  | S sc' => if (m mod 10 =? 0) then normalize (m / 10) sc' else mkDec m sc
  end.

Definition dec_eqb (a b : dec) : bool :=
  let a' := normalize (mant a) (scale a) in
  let b' := normalize (mant b) (scale b) in
  (mant a' =? mant b') && (scale a' =? scale b').

Definition digit_of (c : ascii) : option nat :=
  let n := nat_of_ascii c in
  if (48 <=? n) && (n <=? 57) then Some (n - 48) else None.

(** Reads a run of digits; [None] on any other character. *)
Fixpoint parse_digits (acc : nat) (s : string) : option nat :=
  match s with
  | EmptyString => Some acc
  | String c s' =>
      match digit_of c with
      | Some d => parse_digits (10 * acc + d) s'
      | None => None
      end
  end.

(** Splits at the first occurrence of [sep]. *)
Fixpoint split_at (sep : ascii) (s : string) : string * option string :=
  match s with
  | EmptyString => (EmptyString, None)
  | String c s' =>
      if Ascii.eqb c sep then (EmptyString, Some s')
      else let '(a, b) := split_at sep s' in (String c a, b)
  end.

Definition parse_dec (s : string) : option dec :=
  match split_at "." s with
  | (EmptyString, _) => None
  | (ip, None) =>
      match parse_digits 0 ip with
      | Some n => Some (mkDec n 0)
      | None => None
      end
  | (_, Some EmptyString) => None
  | (ip, Some fp) =>
      match parse_digits 0 ip, parse_digits 0 fp with
      | Some n, Some f =>
          Some (normalize (n * 10 ^ String.length fp + f) (String.length fp))
      | _, _ => None
      end
  end.

Definition digit_char (d : nat) : ascii := ascii_of_nat (48 + d).

(** The [k] low decimal digits of [n], most significant first. *)
Fixpoint low_digits (k n : nat) : string :=
  match k with
  | 0 => EmptyString
  | S k' => String (digit_char ((n / 10 ^ k') mod 10)) (low_digits k' n)
  end.

Fixpoint count_digits (fuel n : nat) : nat :=
  match fuel with
  | 0 => 1
  | S fuel' => if n <? 10 then 1 else S (count_digits fuel' (n / 10))
  end.

Definition nat_to_string (n : nat) : string := low_digits (count_digits n n) n.

Definition dec_to_string (d : dec) : string :=
  let d' := normalize (mant d) (scale d) in
  let p := 10 ^ scale d' in
  match scale d' with
  | 0 => nat_to_string (mant d')
  | S _ => nat_to_string (mant d' / p) ++ "." ++ low_digits (scale d') (mant d' mod p)
  end%string.

(** Values of the workflow expression language. *)
Inductive value :=
| VNull
| VBool (b : bool)
| VNum (d : dec)
| VStr (s : string).

(** A plain (unquoted) YAML scalar resolves to a number or a boolean when
    it reads as one, and to a string otherwise; a quoted scalar is always
    a string. *)
Definition yaml_plain (s : string) : value :=
  match parse_dec s with
  | Some d => VNum d
  | None =>
      if (s =? "true") || (s =? "True") || (s =? "TRUE") then VBool true
      else if (s =? "false") || (s =? "False") || (s =? "FALSE") then VBool false
      else VStr s
  end%string.

Definition yaml_quoted (s : string) : value := VStr s.

Definition to_string (v : value) : string :=
  match v with
  | VNull => ""
  | VBool true => "true"
  | VBool false => "false"
  | VNum d => dec_to_string d
  | VStr s => s
  end.

Definition lower_ascii (c : ascii) : ascii :=
  let n := nat_of_ascii c in
  if (65 <=? n) && (n <=? 90) then ascii_of_nat (n + 32) else c.

Fixpoint lower (s : string) : string :=
  match s with
  | EmptyString => EmptyString
  | String c s' => String (lower_ascii c) (lower s')
  end.

(** Coercion to a number, as the loose equality of the expression
    language performs it; [None] stands for NaN. *)
Definition to_num (v : value) : option dec :=
  match v with
  | VNull => Some (mkDec 0 0)
  | VBool true => Some (mkDec 1 0)
  | VBool false => Some (mkDec 0 0)
  | VNum d => Some d
  | VStr EmptyString => Some (mkDec 0 0)
  | VStr s => parse_dec s
  end.

(** [==] of the expression language: same-type operands are compared
    directly (strings ignoring case), operands of different types are
    first coerced to numbers. *)
Definition loose_eqb (a b : value) : bool :=
  match a, b with
  | VNull, VNull => true
  | VBool x, VBool y => Bool.eqb x y
  | VNum x, VNum y => dec_eqb x y
  | VStr x, VStr y => (lower x =? lower y)%string
  | _, _ =>
      match to_num a, to_num b with
      | Some x, Some y => dec_eqb x y
      | _, _ => false
      end
  end.

(** Strict equality, used when matrix entries are compared. *)
Definition value_eqb (a b : value) : bool :=
  match a, b with
  | VNull, VNull => true
  | VBool x, VBool y => Bool.eqb x y
  | VNum x, VNum y => dec_eqb x y
  | VStr x, VStr y => (x =? y)%string
  | _, _ => false
  end.

Definition truthy (v : value) : bool :=
  match v with
  | VNull => false
  | VBool b => b
  | VNum d => negb (mant d =? 0)
  | VStr EmptyString => false
  | VStr _ => true
  end.

End Scalar.
Import Scalar.

(* ===================================================================== *)
(** ** Expressions and templates of the workflow language                  *)
(* ===================================================================== *)

Module Expr.

(** The [github] context, as far as the workflow reads it. *)
Record github_ctx := mkGithub {
  repository : string;
  ref : string;
  head_ref : string;
  base_ref : string;
  workflow : string;
  event_name : string;
  pr_labels : list string
}.

Definition github_lookup (g : github_ctx) (key : string) : value :=
  if (key =? "repository")%string then VStr (repository g)
  else if (key =? "ref")%string then VStr (ref g)
  else if (key =? "head_ref")%string then VStr (head_ref g)
  else if (key =? "base_ref")%string then VStr (base_ref g)
  else if (key =? "workflow")%string then VStr (workflow g)
  else if (key =? "event_name")%string then VStr (event_name g)
  else VNull.

(** One matrix combination: the values of [matrix.<key>]. *)
Definition combination := list (string * value).

Fixpoint assoc {A} (key : string) (l : list (string * A)) : option A :=
  match l with
  | [] => None
  | (k, v) :: l' => if (k =? key)%string then Some v else assoc key l'
  end.

Definition matrix_lookup (m : combination) (key : string) : value :=
  match assoc key m with
  | Some v => v
  | None => VNull
  end.

(** Expressions between [${{] and [}}]. *)
Inductive expr :=
| ELit (v : value)
| EMatrix (key : string)               (* matrix.<key> *)
| EGithub (key : string)               (* github.<key> *)
| ESecret (key : string)               (* secrets.<key> *)
| EHasLabel (label : string)           (* contains(github.event.pull_request.labels.*.name, label) *)
| ENot (e : expr)
| EAnd (a b : expr)
| EOr (a b : expr)
| EEq (a b : expr)
| EStartsWith (s pre : expr)
| ESuccess                             (* success() *)
| EAlways                              (* always() *)
| ECancelled                           (* cancelled() *)
| EFailure.                            (* failure() *)

(** What the status functions see when a step is about to start. *)
Record status := mkStatus {
  all_succeeded : bool;     (* no earlier step of the job has failed *)
  is_cancelled : bool       (* the run has been cancelled *)
}.

Record env := mkEnv {
  e_github : github_ctx;
  e_matrix : combination;
  e_status : status
}.

Fixpoint eval (en : env) (e : expr) : value :=
  match e with
  | ELit v => v
  | EMatrix k => matrix_lookup (e_matrix en) k
  | EGithub k => github_lookup (e_github en) k
  | ESecret _ => VStr "***"
  | EHasLabel l => VBool (existsb (fun x => (lower x =? lower l)%string) (pr_labels (e_github en)))
  | ENot a => VBool (negb (truthy (eval en a)))
  | EAnd a b => let va := eval en a in if truthy va then eval en b else va
  | EOr a b => let va := eval en a in if truthy va then va else eval en b
  | EEq a b => VBool (loose_eqb (eval en a) (eval en b))
  | EStartsWith s p =>
      VBool (String.prefix (lower (to_string (eval en p))) (lower (to_string (eval en s))))
  | ESuccess => VBool (all_succeeded (e_status en) && negb (is_cancelled (e_status en)))
  | EAlways => VBool true
  | ECancelled => VBool (is_cancelled (e_status en))
  | EFailure => VBool (negb (all_succeeded (e_status en)) && negb (is_cancelled (e_status en)))
  end.

(** Does the expression call one of the status check functions? *)
Fixpoint has_status_fn (e : expr) : bool :=
  match e with
  | ESuccess | EAlways | ECancelled | EFailure => true
  | ENot a => has_status_fn a
  | EAnd a b | EOr a b | EEq a b | EStartsWith a b => has_status_fn a || has_status_fn b
  | _ => false
  end.

(** The condition under which a step runs: a missing [if] is [success()],
    and an [if] that calls no status function is conjoined with
    [success()]. *)
Definition effective_if (c : option expr) : expr :=
  match c with
  | None => ESuccess
  | Some e => if has_status_fn e then e else EAnd ESuccess e
  end.

(** A string with embedded expressions. *)
Inductive piece :=
| Lit (s : string)
| Sub (e : expr).

Definition template := list piece.

Fixpoint render (en : env) (t : template) : string :=
  match t with
  | [] => EmptyString
  | Lit s :: t' => (s ++ render en t')%string
  | Sub e :: t' => (to_string (eval en e) ++ render en t')%string
  end.

End Expr.
Import Expr.

(* ===================================================================== *)
(** ** Filter patterns (branch filters, artifact paths)                    *)
(* ===================================================================== *)

Module Glob.

Inductive gtok :=
| GLit (c : ascii)
| GStar          (* [*]: any run of characters other than [/] *)
| GStarStar.     (* [**]: any run of characters *)

Fixpoint tokens (p : string) : list gtok :=
  match p with
  | EmptyString => []
  | String "*" (String "*" p') => GStarStar :: tokens p'
  | String "*" p' => GStar :: tokens p'
  | String c p' => GLit c :: tokens p'
  end.

Fixpoint gmatch (p : list gtok) : string -> bool :=
  match p with
  | [] => fun s => match s with EmptyString => true | _ => false end
  | GLit c :: p' =>
      fun s => match s with
               | String x s' => Ascii.eqb c x && gmatch p' s'
               | EmptyString => false
               end
  | GStar :: p' =>
      fix star (s : string) : bool :=
        gmatch p' s ||
        match s with
        | String x s' => negb (Ascii.eqb x "/") && star s'
        | EmptyString => false
        end
  | GStarStar :: p' =>
      fix star (s : string) : bool :=
        gmatch p' s ||
        match s with
        | String _ s' => star s'
        | EmptyString => false
        end
  end.

Definition glob_match (pattern s : string) : bool := gmatch (tokens pattern) s.

End Glob.
Import Glob.

(* ===================================================================== *)
(** ** Build matrices                                                      *)
(* ===================================================================== *)

Module Matrix.

Record matrix := mkMatrix {
  axes : list (string * list value);
  include : list combination
}.

(** Cartesian product of the axes, the first axis varying slowest. *)
Fixpoint product (ax : list (string * list value)) : list combination :=
  match ax with
  | [] => [[]]
  | (k, vs) :: ax' =>
      flat_map (fun v => map (fun c => (k, v) :: c) (product ax')) vs
  end.

(** An [include] entry fits a combination of the product when it changes
    none of the combination's axis values. *)
Definition fits (inc base : combination) : bool :=
  forallb (fun kv => match assoc (fst kv) base with
                     | Some v => value_eqb v (snd kv)
                     | None => true
                     end) inc.

(** Adds the entry's pairs to a combination; axis values are kept, values
    added by earlier entries are replaced. *)
Definition has_key (key : string) (c : combination) : bool :=
  match assoc key c with Some _ => true | None => false end.

Definition extend (inc base cur : combination) : combination :=
  filter (fun kv => has_key (fst kv) base || negb (has_key (fst kv) inc)) cur
  ++ filter (fun kv => negb (has_key (fst kv) base)) inc.

(** A combination carries the axis values it came from ([None] for a
    combination created by [include]) and its current values. *)
Definition add_include (st : list (option combination * combination)) (inc : combination)
  : list (option combination * combination) :=
  if existsb (fun bc => match fst bc with Some b => fits inc b | None => false end) st
  then map (fun bc => match fst bc with
                      | Some b => if fits inc b then (Some b, extend inc b (snd bc)) else bc
                      | None => bc
                      end) st
  else st ++ [(None, inc)].

Definition expand (m : matrix) : list combination :=
  match axes m with
  | [] => include m
  | ax => map snd (fold_left add_include (include m) (map (fun c => (Some c, c)) (product ax)))
  end.

End Matrix.
Import Matrix.

(* ===================================================================== *)
(** ** Run scripts                                                         *)
(* ===================================================================== *)

Module Shell.

(** The shell commands the workflow's [run:] blocks are made of.  Words
    are kept as written, after quote removal. *)
Inductive sh :=
| Cmd (argv : list string)                 (* a simple command *)
| Append (c : sh) (file : string)          (* c >> file *)
| OrElse (a b : sh)                        (* a || b *)
| Pipe (a b : sh)                          (* a | b *)
| Assign (var : string) (c : sh)           (* var=$(c) *)
| IfThen (cond : sh) (body : list sh).     (* if cond; then body; fi *)

Definition script := list sh.

(** The part of the runner's file system the model follows: the working
    directory of the script and the files that the workflow names. *)
Record fstate := mkFs { cwd : string; files : list string }.

Definition strip_dot (p : string) : string :=
  if String.prefix "./" p then String.substring 2 (String.length p - 2) p else p.

Definition resolve (dir p : string) : string :=
  if String.prefix "/" p then p
  else if (dir =? "")%string then strip_dot p
  else (dir ++ "/" ++ strip_dot p)%string.

Definition add_file (f : string) (l : list string) : list string :=
  if existsb (String.eqb f) l then l else l ++ [f].

Definition remove_file (f : string) (l : list string) : list string :=
  filter (fun x => negb (x =? f)%string) l.

(** The argument that follows option [opt]. *)
Fixpoint option_arg (opt : string) (args : list string) : option string :=
  match args with
  | a :: ((b :: _) as rest) => if (a =? opt)%string then Some b else option_arg opt rest
  | _ => None
  end.

(** The data files [coverage3 combine] takes in: the files named on the
    command line, the [.coverage.*] files of a directory named there,
    and the [.coverage.*] files of the working directory when no path
    is given. *)
Definition combined (dir : string) (paths : list string) (f : string) : bool :=
  match paths with
  | [] => glob_match (resolve dir ".coverage.*") f
  | _ => existsb (fun p => (resolve dir p =? f)%string
                           || glob_match (resolve dir p ++ "/.coverage.*") f) paths
  end.

(** Modelled from the spec: the helper [tools/extract_deprecation.py] is
    not among the sources; it is taken to write the deprecation-message
    log to the file given after [-output].  The other commands are
    standard tools: [cd] changes the directory, [mv] renames, [tar -zcvf]
    and [wget -O] write the named file, [coverage3 combine] writes
    [.coverage] and deletes the data files it has combined (the workflow
    passes it no option); any other command leaves the followed files
    alone. *)
Definition effect (argv : list string) (st : fstate) : fstate :=
  match argv with
  | [] => st
  | prog :: args =>
      if (prog =? "cd")%string then
        match args with
        | [d] => mkFs (resolve (cwd st) d) (files st)
        | _ => st
        end
      else if (prog =? "mv")%string then
        match args with
        | [a; b] => mkFs (cwd st)
                      (add_file (resolve (cwd st) b) (remove_file (resolve (cwd st) a) (files st)))
        | _ => st
        end
      else if (prog =? "tar")%string then
        match args with
        | _ :: out :: _ => mkFs (cwd st) (add_file (resolve (cwd st) out) (files st))
        | _ => st
        end
      else if (prog =? "wget")%string then
        match option_arg "-O" args with
        | Some out => mkFs (cwd st) (add_file (resolve (cwd st) out) (files st))
        | None => st
        end
      else if (prog =? "coverage3")%string then
        match args with
        | "combine" :: paths =>
            mkFs (cwd st)
              (add_file (resolve (cwd st) ".coverage")
                 (filter (fun f => negb (combined (cwd st) paths f)) (files st)))
        | _ => st
        end
      else if (prog =? "python")%string then
        match args with
        | "tools/extract_deprecation.py" :: rest =>
            match option_arg "-output" rest with
            | Some out => mkFs (cwd st) (add_file (resolve (cwd st) out) (files st))
            | None => st
            end
        | _ => st
        end
      else st
  end.

(** Exit status of a simple command: [true] and [false] are fixed, any
    other command exits as the outside world decides. *)
Definition status_of (ext : list string -> nat) (argv : list string) : nat :=
  match argv with
  | ["true"] => 0
  | ["false"] => 1
  | _ => ext argv
  end.

(** A script under [bash -eo pipefail]: lines run in order and the first
    line that exits nonzero ends the script with that status.  A command
    that exits nonzero may have written its files all the same ([tar]
    exits with 2 after writing the archive when it could not read a
    file); whether it has is for the outside world to say, through
    [wrote].  The working directory changes only when [cd] succeeds. *)
Fixpoint run_sh (ext : list string -> nat) (wrote : list string -> bool)
    (c : sh) (st : fstate) : nat * fstate :=
  match c with
  | Cmd argv =>
      let code := status_of ext argv in
      (code,
       if code =? 0 then effect argv st
       else if wrote argv then mkFs (cwd st) (files (effect argv st))
       else st)
  | Append c' f =>
      let '(code, st') := run_sh ext wrote c' st in
      (code, mkFs (cwd st') (add_file (resolve (cwd st') f) (files st')))
  | OrElse a b =>
      let '(ca, st1) := run_sh ext wrote a st in
      if ca =? 0 then (0, st1) else run_sh ext wrote b st1
  | Pipe a b =>
      let '(ca, st1) := run_sh ext wrote a st in
      let '(cb, st2) := run_sh ext wrote b st1 in
      (if cb =? 0 then ca else cb, st2)
  | Assign _ c' => run_sh ext wrote c' st
  | IfThen cond body =>
      let '(cc, st1) := run_sh ext wrote cond st in
      if cc =? 0 then
        (fix lines (l : list sh) (s : fstate) : nat * fstate :=
           match l with
           | [] => (0, s)
           | x :: l' =>
               let '(cx, s') := run_sh ext wrote x s in
               if cx =? 0 then lines l' s' else (cx, s')
           end) body st1
      else (0, st1)
  end.

Fixpoint run_script (ext : list string -> nat) (wrote : list string -> bool)
    (l : script) (st : fstate) : nat * fstate :=
  match l with
  | [] => (0, st)
  | c :: l' =>
      let '(code, st') := run_sh ext wrote c st in
      if code =? 0 then run_script ext wrote l' st' else (code, st')
  end.

End Shell.
Import Shell.

(* ===================================================================== *)
(** ** Steps, jobs and the run of one job instance                         *)
(* ===================================================================== *)

Module Runner.

Inductive action :=
| Run (shell : string) (body : script)                  (* run: ... / shell: ... *)
| Uses (act : string) (args : list (string * template)). (* uses: ... / with: ... *)

Record step := mkStep {
  s_name : option template;
  s_env : list (string * template);
  s_action : action;
  s_if : option expr
}.

Record job := mkJob {
  j_id : string;
  j_needs : list string;
  j_runs_on : template;
  j_fail_fast : option bool;
  j_matrix : matrix;
  j_steps : list step
}.

(** An uploaded artifact: its name and the files it holds, as paths
    relative to the root of the upload. *)
Definition artifact := (string * list string)%type.

(** Everything a job instance does not decide itself. *)
Record world := mkWorld {
  cmd_status : nat -> list string -> nat;   (* exit status of a command of step [i] *)
  cmd_wrote : nat -> list string -> bool;   (* has a failing command of step [i] written its files *)
  action_ok : nat -> bool;                  (* does the action used by step [i] succeed *)
  cancel_at : option nat                    (* the run is cancelled from this step on *)
}.

Definition cancelled (w : world) (i : nat) : bool :=
  match cancel_at w with
  | Some k => k <=? i
  | None => false
  end.

Inductive outcome := Succeeded | Failed | Skipped.

Record jstate := mkJs {
  js_ok : bool;                  (* no step has failed so far *)
  js_fs : fstate;
  js_store : list artifact;      (* artifacts of the run *)
  js_log : list outcome          (* one entry per step, in order *)
}.

Definition arg (key : string) (en : env) (args : list (string * template)) : string :=
  match assoc key args with
  | Some t => render en t
  | None => EmptyString
  end.

(** Length of the directory part of an upload path that precedes its
    first wildcard: the root the uploaded files are named from. *)
Fixpoint root_len (p : string) (i last : nat) : nat :=
  match p with
  | EmptyString => last
  | String c p' =>
      if Ascii.eqb c "*" then last
      else if Ascii.eqb c "/" then root_len p' (S i) (S i)
      else root_len p' (S i) last
  end.

Definition collect (pattern : string) (fs : fstate) : list string :=
  let pat := resolve EmptyString pattern in
  let r := root_len pat 0 0 in
  map (fun f => String.substring r (String.length f - r) f)
      (filter (glob_match pat) (files fs)).

(** [actions/upload-artifact@v4] stores the files matched by [path] under
    [name]; a name already taken in the run is an error, and nothing is
    stored when no file matches.  [actions/download-artifact@v4] unpacks
    the artifact [name] below [path] and fails when there is none.  Any
    other action only succeeds or fails. *)
Definition run_action (w : world) (i : nat) (en : env) (act : string)
    (args : list (string * template)) (st : jstate) : outcome * fstate * list artifact :=
  if negb (action_ok w i) then (Failed, js_fs st, js_store st)
  else if (act =? "actions/upload-artifact@v4")%string then
    let name := arg "name" en args in
    let found := collect (arg "path" en args) (js_fs st) in
    match found, assoc name (js_store st) with
    | [], _ => (Succeeded, js_fs st, js_store st)
    | _, Some _ => (Failed, js_fs st, js_store st)
    | _, None => (Succeeded, js_fs st, js_store st ++ [(name, found)])
    end
  else if (act =? "actions/download-artifact@v4")%string then
    match assoc (arg "name" en args) (js_store st) with
    | Some entries =>
        let dir := arg "path" en args in
        (Succeeded,
         mkFs (cwd (js_fs st))
              (fold_left (fun l f => add_file (dir ++ "/" ++ f)%string l) entries (files (js_fs st))),
         js_store st)
    | None => (Failed, js_fs st, js_store st)
    end
  else (Succeeded, js_fs st, js_store st).

Definition step_env (w : world) (g : github_ctx) (m : combination) (i : nat) (st : jstate) : env :=
  mkEnv g m (mkStatus (js_ok st) (cancelled w i)).

(** Does step [i] run in state [st]? *)
Definition step_runs (w : world) (g : github_ctx) (m : combination) (i : nat)
    (s : step) (st : jstate) : bool :=
  truthy (eval (step_env w g m i st) (effective_if (s_if s))).

(** One step: skipped when its condition is false; otherwise a [run]
    step succeeds iff its script exits with 0 (each script starts in the
    workspace directory), and a [uses] step does what its action does. *)
Definition run_step (w : world) (g : github_ctx) (m : combination) (i : nat)
    (s : step) (st : jstate) : jstate :=
  if step_runs w g m i s st then
    match s_action s with
    | Run _ body =>
        let '(code, fs') := run_script (cmd_status w i) (cmd_wrote w i) body (mkFs EmptyString (files (js_fs st))) in
        let fs1 := mkFs EmptyString (files fs') in
        if code =? 0
        then mkJs (js_ok st) fs1 (js_store st) (js_log st ++ [Succeeded])
        else mkJs false fs1 (js_store st) (js_log st ++ [Failed])
    | Uses act args =>
        let '(o, fs', store') := run_action w i (step_env w g m i st) act args st in
        match o with
        | Succeeded => mkJs (js_ok st) fs' store' (js_log st ++ [Succeeded])
        | _ => mkJs false fs' store' (js_log st ++ [Failed])
        end
    end
  else mkJs (js_ok st) (js_fs st) (js_store st) (js_log st ++ [Skipped]).

Fixpoint run_steps (w : world) (g : github_ctx) (m : combination) (i : nat)
    (l : list step) (st : jstate) : jstate :=
  match l with
  | [] => st
  | s :: l' => run_steps w g m (S i) l' (run_step w g m i s st)
  end.

(** A job instance starts on a fresh runner, with the artifacts the run
    has stored so far. *)
Definition start (store : list artifact) : jstate :=
  mkJs true (mkFs EmptyString []) store [].

Definition run_job (w : world) (g : github_ctx) (store : list artifact)
    (j : job) (m : combination) : jstate :=
  run_steps w g m 0 (j_steps j) (start store).

(** The artifacts a job instance adds to an empty store. *)
Definition uploads (w : world) (g : github_ctx) (j : job) (m : combination) : list artifact :=
  js_store (run_job w g [] j m).

End Runner.
Import Runner.

(* ===================================================================== *)
(** ** Triggers                                                            *)
(* ===================================================================== *)

Module Trigger.

(** A point in time, as a cron expression sees it. *)
Record time := mkTime {
  minute : nat;
  hour : nat;
  day_of_month : nat;
  month : nat;
  day_of_week : nat
}.

Inductive cfield :=
| Any                 (* [*] *)
| Exactly (n : nat).

Record cron := mkCron {
  c_minute : cfield;
  c_hour : cfield;
  c_dom : cfield;
  c_month : cfield;
  c_dow : cfield
}.

Fixpoint words (s : string) : list string :=
  match s with
  | EmptyString => [EmptyString]
  | String c s' =>
      if Ascii.eqb c " " then EmptyString :: words s'
      else match words s' with
           | w :: ws => String c w :: ws
           | [] => [String c EmptyString]
           end
  end.

Definition parse_field (s : string) : option cfield :=
  if (s =? "*")%string then Some Any
  else match s with
       | EmptyString => None
       | _ => match parse_digits 0 s with
              | Some n => Some (Exactly n)
              | None => None
              end
       end.

Definition parse_cron (s : string) : option cron :=
  match map parse_field (words s) with
  | [Some a; Some b; Some c; Some d; Some e] => Some (mkCron a b c d e)
  | _ => None
  end.

Definition field_match (f : cfield) (n : nat) : bool :=
  match f with
  | Any => true
  | Exactly k => k =? n
  end.

Definition cron_match (c : cron) (t : time) : bool :=
  field_match (c_minute c) (minute t) && field_match (c_hour c) (hour t) &&
  field_match (c_dom c) (day_of_month t) && field_match (c_month c) (month t) &&
  field_match (c_dow c) (day_of_week t).

Inductive git_ref :=
| Branch (name : string)
| Tag (name : string).

(** The events that may reach a repository. *)
Inductive event :=
| Push (r : git_ref)
| PullRequest (base : string)        (* base: the branch the pull request targets *)
| Schedule (t : time)
| Other (kind : string).             (* workflow_dispatch, release, issues, ... *)

Definition event_kind (e : event) : string :=
  match e with
  | Push _ => "push"
  | PullRequest _ => "pull_request"
  | Schedule _ => "schedule"
  | Other k => k
  end.

(** What the workflow writes under one key of [on:]. *)
Inductive trigger :=
| NoFilter
| OnBranches (patterns : list string)
| OnCron (exprs : list string).

Definition on_config := list (string * trigger).

(** Does the event start the workflow?  A [branches] filter admits only
    branch refs that match one of its patterns. *)
Definition fires (on : on_config) (e : event) : bool :=
  match assoc (event_kind e) on with
  | None => false
  | Some tr =>
      match e, tr with
      | Push (Branch b), OnBranches ps => existsb (fun p => glob_match p b) ps
      | Push (Tag _), OnBranches _ => false
      | Push _, NoFilter => true
      | PullRequest b, OnBranches ps => existsb (fun p => glob_match p b) ps
      | PullRequest _, NoFilter => true
      | Schedule t, OnCron cs =>
          existsb (fun c => match parse_cron c with
                            | Some c' => cron_match c' t
                            | None => false
                            end) cs
      | Other _, NoFilter => true
      | _, _ => false
      end
  end.

End Trigger.
Import Trigger.

(* ===================================================================== *)
(** ** Concurrency groups                                                  *)
(* ===================================================================== *)

Module Concurrency.

Record concurrency := mkConc {
  group : template;
  cancel_in_progress : bool
}.

Inductive run_status := Pending | InProgress | Completed | Cancelled.

Record wf_run := mkRun {
  run_id : nat;
  run_group : string;
  run_state : run_status
}.

Definition group_of (c : concurrency) (g : github_ctx) : string :=
  render (mkEnv g [] (mkStatus true false)) (group c).

Definition in_group (grp : string) (r : wf_run) : bool := (run_group r =? grp)%string.

Definition is_state (s : run_status) (r : wf_run) : bool :=
  match s, run_state r with
  | Pending, Pending | InProgress, InProgress
  | Completed, Completed | Cancelled, Cancelled => true
  | _, _ => false
  end.

Definition cancel (r : wf_run) : wf_run := mkRun (run_id r) (run_group r) Cancelled.

(** A new run enters its group.  With [cancel-in-progress] the runs of
    the group that are in progress or pending are cancelled and the new
    run starts at once; without it the new run waits behind a run in
    progress, replacing any run that was pending there. *)
Definition start_run (c : concurrency) (id : nat) (g : github_ctx) (runs : list wf_run)
  : list wf_run :=
  let grp := group_of c g in
  if cancel_in_progress c then
    map (fun r => if in_group grp r && (is_state InProgress r || is_state Pending r)
                  then cancel r else r) runs
    ++ [mkRun id grp InProgress]
  else if existsb (fun r => in_group grp r && is_state InProgress r) runs then
    map (fun r => if in_group grp r && is_state Pending r then cancel r else r) runs
    ++ [mkRun id grp Pending]
  else runs ++ [mkRun id grp InProgress].

End Concurrency.
Import Concurrency.

(* ===================================================================== *)
(** ** Job scheduling                                                      *)
(* ===================================================================== *)

Module Schedule.

Inductive conclusion := CSuccess | CFailure | CCancelled | CSkipped.

Inductive jstatus :=
| Waiting
| Running
| Done (r : conclusion).

(** Status of every job instance: job id, then index into the job's
    expanded matrix. *)
Definition sstate := string -> nat -> jstatus.

Definition upd (st : sstate) (j : string) (k : nat) (v : jstatus) : sstate :=
  fun j' k' => if (j' =? j)%string && (k' =? k) then v else st j' k'.

Definition init : sstate := fun _ _ => Waiting.

Definition instances (j : job) : nat := List.length (expand (j_matrix j)).

Definition job_succeeded (st : sstate) (j : job) : Prop :=
  forall k, k < instances j -> st (j_id j) k = Done CSuccess.

Definition job_done (st : sstate) (j : job) : Prop :=
  forall k, k < instances j -> exists r, st (j_id j) k = Done r.

Inductive sevent :=
| Start (j : string) (k : nat)
| Finish (j : string) (k : nat) (r : conclusion)
| Skip (j : string) (k : nat)
| Cancel (j : string) (k : nat).

Definition target (e : sevent) : string * nat :=
  match e with
  | Start j k | Finish j k _ | Skip j k | Cancel j k => (j, k)
  end.

(** The runner's rule for [needs]: an instance of a job starts once every
    instance of each job it needs has concluded with success; when the
    needed jobs have concluded otherwise, the instance is skipped.  A run
    can be cancelled at any moment. *)
Inductive sstep (jobs : list job) : sstate -> sevent -> sstate -> Prop :=
| step_start st j k :
    In j jobs -> k < instances j -> st (j_id j) k = Waiting ->
    (forall p, In p jobs -> In (j_id p) (j_needs j) -> job_succeeded st p) ->
    sstep jobs st (Start (j_id j) k) (upd st (j_id j) k Running)
| step_finish st j k r :
    In j jobs -> k < instances j -> st (j_id j) k = Running ->
    r = CSuccess \/ r = CFailure ->
    sstep jobs st (Finish (j_id j) k r) (upd st (j_id j) k (Done r))
| step_skip st j k p :
    In j jobs -> k < instances j -> st (j_id j) k = Waiting ->
    (forall q, In q jobs -> In (j_id q) (j_needs j) -> job_done st q) ->
    In p jobs -> In (j_id p) (j_needs j) -> ~ job_succeeded st p ->
    sstep jobs st (Skip (j_id j) k) (upd st (j_id j) k (Done CSkipped))
| step_cancel st j k :
    In j jobs -> k < instances j ->
    st (j_id j) k = Waiting \/ st (j_id j) k = Running ->
    sstep jobs st (Cancel (j_id j) k) (upd st (j_id j) k (Done CCancelled)).

(** A run of the scheduler with the events it went through, oldest first. *)
Inductive trace (jobs : list job) : sstate -> list sevent -> sstate -> Prop :=
| trace_nil st : trace jobs st [] st
| trace_snoc st0 tr st e st' :
    trace jobs st0 tr st -> sstep jobs st e st' -> trace jobs st0 (tr ++ [e]) st'.

End Schedule.
Import Schedule.

(** What the workflow file declares. *)
Record workflow_file := mkWorkflow {
  w_name : string;
  w_on : on_config;
  w_concurrency : concurrency;
  w_jobs : list job
}.

(* ===================================================================== *)
(** ** The workflow "Machine Learning Unit Tests"                          *)
(* ===================================================================== *)

Module Main.

Definition str (s : string) : expr := ELit (VStr s).

(** A number literal of the expression language. *)
Definition num (s : string) : expr :=
  ELit (match parse_dec s with Some d => VNum d | None => VNull end).

Definition nl : string := String (ascii_of_nat 10) EmptyString.

(** A block scalar ([|]): its lines, each ended by a line feed. *)
Definition block (l : list string) : template :=
  [Lit (String.concat EmptyString (map (fun x => (x ++ nl)%string) l))].

Definition py_version : template := [Sub (EMatrix "python-version")].
Definition os : template := [Sub (EMatrix "os")].

Definition pip_cache : list (string * template) :=
  [("python-version", py_version);
   ("cache", [Lit "pip"]);
   ("cache-dependency-path", block ["setup.py"; "requirements.txt"; "requirements-dev.txt"])].

Definition Checks : job :=
  mkJob "Checks" [] os None
    (mkMatrix [("os", [yaml_plain "ubuntu-latest"]);
               ("python-version", [yaml_plain "3.9"])] [])
    [ mkStep (Some [Lit "Print Concurrency Group"])
        [("CONCURRENCY_GROUP",
          [Sub (EGithub "repository"); Lit "-"; Sub (EGithub "ref"); Lit "-";
           Sub (EGithub "head_ref"); Lit "-"; Sub (EGithub "workflow")])]
        (Run "bash"
           [Cmd ["echo"; "-e"; "\033[31;1;4mConcurrency Group\033[0m"];
            Cmd ["echo"; "-e"; "$CONCURRENCY_GROUP\n"]])
        None;
      mkStep None [] (Uses "actions/checkout@v4" [("fetch-depth", [Lit "0"])]) None;
      mkStep None [] (Uses "actions/setup-python@v5" pip_cache) None;
      mkStep None []
        (Uses "./.github/actions/install-main-dependencies"
           [("os", os); ("python-version", py_version); ("qiskit-main", [Lit "false"])])
        (Some (EAnd (ENot (EStartsWith (EGithub "ref") (str "refs/heads/stable")))
                    (ENot (EStartsWith (EGithub "base_ref") (str "stable/")))));
      mkStep None [] (Uses "./.github/actions/install-machine-learning" []) None;
      mkStep (Some [Lit "Install Dependencies"]) []
        (Run "bash"
           [Cmd ["pip"; "install"; "torchvision"];
            Cmd ["sudo"; "apt-get"; "-y"; "install"; "pandoc"; "graphviz"];
            Cmd ["sudo"; "apt-get"; "-y"; "install"; "python3-enchant"];
            Cmd ["sudo"; "apt-get"; "-y"; "install"; "hunspell-en-us"];
            Cmd ["pip"; "install"; "pyenchant"];
            Append (Cmd ["echo"; "earliest_version: 0.1.0"]) "releasenotes/config.yaml"])
        None;
      mkStep None [] (Run "bash" [Cmd ["pip"; "check"]]) (Some (ENot ECancelled));
      mkStep (Some [Lit "Copyright Check"]) []
        (Run "bash" [Cmd ["python"; "tools/check_copyright.py"; "-check"]])
        (Some (ENot ECancelled));
      mkStep None [] (Run "bash" [Cmd ["make"; "spell"]]) (Some (ENot ECancelled));
      mkStep (Some [Lit "Style Check"]) []
        (Run "bash" [Cmd ["make"; "clean_sphinx"]; Cmd ["make"; "style"]])
        (Some (ENot ECancelled));
      mkStep (Some [Lit "Run make html"]) []
        (Run "bash"
           [Cmd ["make"; "clean_sphinx"];
            Cmd ["make"; "html"];
            Cmd ["cd"; "docs/_build/html"];
            Cmd ["mkdir"; "artifacts"];
            Cmd ["tar"; "-zcvf"; "artifacts/documentation.tar.gz"; "--exclude=./artifacts"; "."]])
        (Some (ENot ECancelled));
      mkStep (Some [Lit "Run upload documentation"]) []
        (Uses "actions/upload-artifact@v4"
           [("name", [Lit "documentation"]);
            ("path", [Lit "docs/_build/html/artifacts/documentation.tar.gz"])])
        (Some (ENot ECancelled));
      mkStep None [] (Run "bash" [Cmd ["make"; "doctest"]]) (Some (ENot ECancelled)) ].

Definition MachineLearning : job :=
  mkJob "MachineLearning" [] os (Some false)
    (mkMatrix
       [("os", [yaml_plain "ubuntu-latest"]);
        ("python-version",
         [yaml_plain "3.9"; yaml_quoted "3.10"; yaml_plain "3.11";
          yaml_plain "3.12"; yaml_plain "3.13"])]
       [ [("os", yaml_plain "macos-latest"); ("python-version", yaml_plain "3.9")];
         [("os", yaml_plain "macos-latest"); ("python-version", yaml_plain "3.13")];
         [("os", yaml_plain "windows-latest"); ("python-version", yaml_plain "3.9")];
         [("os", yaml_plain "windows-latest"); ("python-version", yaml_plain "3.13")] ])
    [ mkStep None [] (Uses "actions/checkout@v4" []) None;
      mkStep None [] (Uses "actions/setup-python@v5" pip_cache) None;
      mkStep None []
        (Uses "./.github/actions/install-main-dependencies"
           [("os", os); ("python-version", py_version)])
        (Some (EAnd (ENot (EStartsWith (EGithub "ref") (str "refs/heads/stable")))
                    (ENot (EStartsWith (EGithub "base_ref") (str "stable/")))));
      mkStep None [] (Uses "./.github/actions/install-machine-learning" []) None;
      mkStep None [] (Run "bash" [Cmd ["make"; "lint"]]) None;
      mkStep None [] (Run "bash" [Cmd ["make"; "mypy"]]) (Some (ENot ECancelled));
      mkStep (Some [Lit "Machine Learning Unit Tests under Python "; Sub (EMatrix "python-version")]) []
        (Uses "./.github/actions/run-tests"
           [("os", os);
            ("event-name", [Sub (EGithub "event_name")]);
            ("run-slow", [Sub (EHasLabel "run_slow")]);
            ("python-version", py_version)])
        (Some (ENot ECancelled));
      mkStep (Some [Lit "Deprecation Messages"]) []
        (Run "bash"
           [Cmd ["mkdir"; "./ci-artifact-data"];
            Cmd ["python"; "tools/extract_deprecation.py"; "-file"; "out.txt";
                 "-output"; "./ci-artifact-data/ml.dep"]])
        None;
      mkStep (Some [Lit "Coverage combine"]) []
        (Run "bash"
           [Cmd ["coverage3"; "combine"];
            Cmd ["mv"; ".coverage"; "./ci-artifact-data/ml.dat"]])
        (Some (EAnd (EEq (EMatrix "os") (str "ubuntu-latest"))
                    (EEq (EMatrix "python-version") (num "3.9"))));
      mkStep None []
        (Uses "actions/upload-artifact@v4"
           [("name", [Sub (EMatrix "os"); Lit "-"; Sub (EMatrix "python-version")]);
            ("path", [Lit "./ci-artifact-data/*"])])
        None;
      mkStep (Some [Lit "Machine Learning Unit Tests without torch/sparse under Python ";
                    Sub (EMatrix "python-version")])
        [("PYTHONWARNINGS", [Lit "default"])]
        (Run "bash"
           [Cmd ["pip"; "uninstall"; "-y"; "torch"; "sparse"];
            IfThen
              (OrElse
                 (Cmd ["["; "${{ github.event_name }}"; "=="; "schedule"; "]"])
                 (Cmd ["[";
                       "${{ contains(github.event.pull_request.labels.*.name, 'run_slow') }}";
                       "=="; "true"; "]"]))
              [Cmd ["export"; "QISKIT_TESTS=run_slow"]];
            Cmd ["stestr"; "--test-path"; "test"; "run"]])
        (Some (ENot ECancelled)) ].

Definition Tutorials : job :=
  mkJob "Tutorials" [] os (Some false)
    (mkMatrix [("os", [yaml_plain "ubuntu-latest"]);
               ("python-version", [yaml_plain "3.9"; yaml_plain "3.13"])] [])
    [ mkStep None [] (Uses "actions/checkout@v4" [("fetch-depth", [Lit "0"])]) None;
      mkStep None [] (Uses "actions/setup-python@v5" pip_cache) None;
      mkStep None []
        (Uses "./.github/actions/install-main-dependencies"
           [("os", os); ("python-version", py_version)])
        (Some (EAnd (ENot (EStartsWith (EGithub "ref") (str "refs/heads/stable")))
                    (ENot (EStartsWith (EGithub "base_ref") (str "stable/")))));
      mkStep None [] (Uses "./.github/actions/install-machine-learning" []) None;
      mkStep (Some [Lit "Install Dependencies"]) []
        (Run "bash"
           [Cmd ["pip"; "install"; "jupyter"];
            Cmd ["pip"; "install"; "torchvision"];
            Cmd ["sudo"; "apt-get"; "install"; "-y"; "pandoc"; "graphviz"]])
        None;
      mkStep (Some [Lit "Run Machine Learning Tutorials"])
        [("QISKIT_PARALLEL", [Lit "False"]); ("QISKIT_DOCS_BUILD_TUTORIALS", [Lit "always"])]
        (Run "bash"
           [Append (Cmd ["echo"; "earliest_version: 0.1.0"]) "releasenotes/config.yaml";
            Cmd ["make"; "html"];
            Cmd ["cd"; "docs/_build/html"];
            Cmd ["mkdir"; "artifacts"];
            Cmd ["tar"; "-zcvf"; "artifacts/tutorials.tar.gz"; "--exclude=./artifacts"; "."]])
        None;
      mkStep (Some [Lit "Run upload tutorials"]) []
        (Uses "actions/upload-artifact@v4"
           [("name", [Lit "tutorials"; Sub (EMatrix "python-version")]);
            ("path", [Lit "docs/_build/html/artifacts/tutorials.tar.gz"])])
        None;
      mkStep (Some [Lit "Run stable tutorials"])
        [("QISKIT_PARALLEL", [Lit "False"]); ("QISKIT_DOCS_BUILD_TUTORIALS", [Lit "always"])]
        (Run "bash"
           [Cmd ["make"; "clean_sphinx"];
            Assign "version"
              (Pipe (Cmd ["pip"; "show"; "qiskit-machine-learning"])
                    (Cmd ["awk"; "-F."; "/^Version:/ { print substr($1,10), $2-1 }"; "OFS=."]));
            Cmd ["wget";
                 "https://codeload.github.com/qiskit-community/qiskit-machine-learning/zip/stable/$version";
                 "-O"; "/tmp/repo.zip"];
            Cmd ["unzip"; "/tmp/repo.zip"; "-d"; "/tmp/"];
            Cmd ["cp"; "-R"; "/tmp/qiskit-machine-learning-stable-$version/docs/tutorials/*";
                 "docs/tutorials"];
            Append (Cmd ["echo"; "earliest_version: 0.1.0"]) "releasenotes/config.yaml";
            Cmd ["tools/ignore_untagged_notes.sh"];
            Cmd ["make"; "html"];
            Cmd ["cd"; "docs/_build/html"];
            Cmd ["mkdir"; "artifacts"];
            Cmd ["tar"; "-zcvf"; "artifacts/tutorials.tar.gz"; "--exclude=./artifacts"; "."]])
        (Some (EAnd (EAnd (EEq (EMatrix "python-version") (num "3.9"))
                          (ENot (EStartsWith (EGithub "ref") (str "refs/heads/stable"))))
                    (ENot (EStartsWith (EGithub "base_ref") (str "stable/")))));
      mkStep (Some [Lit "Run upload stable tutorials"]) []
        (Uses "actions/upload-artifact@v4"
           [("name", [Lit "tutorials-stable"; Sub (EMatrix "python-version")]);
            ("path", [Lit "docs/_build/html/artifacts/tutorials.tar.gz"])])
        (Some (EAnd (EAnd (EEq (EMatrix "python-version") (num "3.9"))
                          (ENot (EStartsWith (EGithub "ref") (str "refs/heads/stable"))))
                    (ENot (EStartsWith (EGithub "base_ref") (str "stable/"))))) ].

Definition download (name path : string) : step :=
  mkStep None []
    (Uses "actions/download-artifact@v4" [("name", [Lit name]); ("path", [Lit path])])
    None.

Definition Deprecation_Messages_and_Coverage : job :=
  mkJob "Deprecation_Messages_and_Coverage"
    ["Checks"; "MachineLearning"; "Tutorials"]
    [Lit "ubuntu-latest"] None
    (mkMatrix [("python-version", [yaml_plain "3.9"])] [])
    [ mkStep None [] (Uses "actions/checkout@v4" []) None;
      mkStep None [] (Uses "actions/setup-python@v5" [("python-version", py_version)]) None;
      download "ubuntu-latest-3.9" "/tmp/u39";
      download "ubuntu-latest-3.10" "/tmp/u310";
      download "ubuntu-latest-3.11" "/tmp/u311";
      download "ubuntu-latest-3.12" "/tmp/u312";
      download "ubuntu-latest-3.13" "/tmp/u313";
      download "macos-latest-3.9" "/tmp/m39";
      download "macos-latest-3.13" "/tmp/m313";
      download "windows-latest-3.9" "/tmp/w39";
      download "windows-latest-3.13" "/tmp/w313";
      mkStep (Some [Lit "Install Dependencies"]) []
        (Run "bash" [Cmd ["pip"; "install"; "-U"; "coverage"; "coveralls"; "diff-cover"]])
        None;
      mkStep (Some [Lit "Combined Deprecation Messages"]) []
        (Run "bash"
           [OrElse
              (Cmd ["sort"; "-f"; "-u";
                    "/tmp/u39/ml.dep"; "/tmp/u310/ml.dep"; "/tmp/u311/ml.dep";
                    "/tmp/u312/ml.dep"; "/tmp/u313/ml.dep"; "/tmp/m39/ml.dep";
                    "/tmp/m313/ml.dep"; "/tmp/w39/ml.dep"; "/tmp/w313/ml.dep"])
              (Cmd ["true"])])
        None;
      mkStep (Some [Lit "Coverage combine"]) []
        (Run "bash" [Cmd ["coverage3"; "combine"; "/tmp/u39/ml.dat"]])
        None;
      mkStep (Some [Lit "Upload to Coveralls"])
        [("GITHUB_TOKEN", [Sub (ESecret "GITHUB_TOKEN")])]
        (Run "bash" [Cmd ["coveralls"; "--service=github"]])
        None ].

Definition main : workflow_file :=
  mkWorkflow "Machine Learning Unit Tests"
    [("push", OnBranches ["main"; "stable/**"]);
     ("pull_request", OnBranches ["main"; "stable/**"]);
     ("schedule", OnCron ["0 1 * * *"])]
    (mkConc
       [Sub (EGithub "repository"); Lit "-"; Sub (EGithub "ref"); Lit "-";
        Sub (EGithub "head_ref"); Lit "-"; Sub (EGithub "workflow")]
       true)
    [Checks; MachineLearning; Tutorials; Deprecation_Messages_and_Coverage].

End Main.

(* ===================================================================== *)
(** ** The notebook: a fragment of Python and its shape-level reading      *)
(* ===================================================================== *)

Module Notebook.

Inductive pexpr :=
| Name (x : string)
| Int (n : nat)
| Float (text : string)
| Str (s : string)
| Bool (b : bool)
| FStr (parts : list pexpr)                       (* f"...{e}..." *)
| Attr (e : pexpr) (a : string)                   (* e.a *)
| Call (f : pexpr) (args : list pexpr) (kw : list (string * pexpr))
| Tup (l : list pexpr)
| Neg (e : pexpr)
| Add (a b : pexpr)
| Eq (a b : pexpr)
| Index (e : pexpr) (idx : list pexpr)            (* e[i, j] *)
| SliceAll.                                       (* : *)

Inductive stmt :=
| FromImport (module : string) (names : list string)
| FromImportAs (module name alias : string)
| Import (module : string)
| ImportAs (module alias : string)
| Assign (targets : list string) (e : pexpr)
| SetAttr (obj : pexpr) (a : string) (e : pexpr)  (* obj.a = e *)
| Expr (e : pexpr)
| Magic (line : string).                          (* %line *)

Definition cell := list stmt.

(** Values, followed as far as shapes go. *)
Inductive pyval :=
| PInt (n : nat)
| PArr (shape : list nat)          (* an array of that shape *)
| PTuple (l : list pyval)
| PFun (name : string)             (* an imported function or class *)
| PMod (name : string)             (* an imported module *)
| PObj (cls : string)              (* an instance of a library class *)
| PEst (id : nat)                  (* a classifier object *)
| PAny.                            (* anything else *)

(** One call on a classifier: the object, the method, the arguments as
    written and as evaluated. *)
Record call := mkCall {
  c_obj : nat;
  c_method : string;
  c_written : list pexpr;
  c_values : list pyval
}.

Record pstate := mkPs {
  vars : list (string * pyval);
  ests : list (option nat);        (* per classifier: the feature count it was fitted on *)
  calls : list call                (* calls on classifiers, oldest first *)
}.

Inductive result (A : Type) :=
| Ok (a : A)
| Err (msg : string).
Arguments Ok {A} a.
Arguments Err {A} msg.

Definition bind {A B} (r : result A) (k : A -> result B) : result B :=
  match r with
  | Ok a => k a
  | Err m => Err m
  end.

Notation "x <- r ;; k" := (bind r (fun x => k))
  (at level 61, r at next level, right associativity).
Notation "' p <- r ;; k" := (bind r (fun x => let 'p := x in k))
  (at level 61, p pattern, r at next level, right associativity).

Definition size (sh : list nat) : nat := fold_right Nat.mul 1 sh.

Definition set_var (x : string) (v : pyval) (st : pstate) : pstate :=
  mkPs ((x, v) :: vars st) (ests st) (calls st).

Fixpoint set_nth {A} (n : nat) (a : A) (l : list A) : list A :=
  match l, n with
  | [], _ => []
  | _ :: l', 0 => a :: l'
  | x :: l', S n' => x :: set_nth n' a l'
  end.

Definition kwarg (k : string) (kw : list (string * pyval)) : pyval :=
  match assoc k kw with
  | Some v => v
  | None => PAny
  end.

(** Modelled from the spec: the classifier [PegasosQSVC] is not among the
    sources; it follows the conventional supervised-learning estimator
    contract, [fit(features, labels)], [score(features, labels)] and
    [predict(features)]: features are a 2-D array of samples by features,
    labels a 1-D array with one entry per sample; [fit] returns the
    fitted classifier, and [score] and [predict] need a classifier fitted
    on the same number of features. *)
Definition estimator_call (id : nat) (m : string) (written : list pexpr)
    (args : list pyval) (st : pstate) : result (pyval * pstate) :=
  let log := mkCall id m written args in
  match nth_error (ests st) id with
  | None => Err "no such classifier"
  | Some fitted =>
      if (m =? "fit")%string then
        match args with
        | [PArr [n; f]; PArr [n']] =>
            if n =? n'
            then Ok (PEst id, mkPs (vars st) (set_nth id (Some f) (ests st)) (calls st ++ [log]))
            else Err "fit: inconsistent numbers of samples"
        | _ => Err "fit: expected features and labels"
        end
      else if (m =? "score")%string then
        match fitted, args with
        | Some f0, [PArr [n; f]; PArr [n']] =>
            if (n =? n') && (f =? f0)
            then Ok (PAny, mkPs (vars st) (ests st) (calls st ++ [log]))
            else Err "score: shape mismatch"
        | None, _ => Err "score: classifier is not fitted"
        | _, _ => Err "score: expected features and labels"
        end
      else if (m =? "predict")%string then
        match fitted, args with
        | Some f0, [PArr [n; f]] =>
            if f =? f0
            then Ok (PArr [n], mkPs (vars st) (ests st) (calls st ++ [log]))
            else Err "predict: shape mismatch"
        | None, _ => Err "predict: classifier is not fitted"
        | _, _ => Err "predict: expected features"
        end
      else Ok (PAny, st)
  end.

Fixpoint ints (l : list pyval) : option (list nat) :=
  match l with
  | [] => Some []
  | PInt n :: l' => match ints l' with Some r => Some (n :: r) | None => None end
  | _ :: _ => None
  end.

Section Library.

(** Number of points that [np.arange(-margin, np.pi + margin, grid_step)]
    yields; it is the outcome of floating-point arithmetic and is left
    open. *)
Variable arange_len : nat.

(** Shape-level behaviour of the library functions the notebook calls. *)
Definition call_function (f : string) (args : list pyval) (kw : list (string * pyval))
    (st : pstate) : result (pyval * pstate) :=
  if (f =? "make_blobs")%string then
    match kwarg "n_samples" kw, kwarg "n_features" kw with
    | PInt n, PInt k => Ok (PTuple [PArr [n; k]; PArr [n]], st)
    | _, _ => Err "make_blobs: arguments"
    end
  else if (f =? "train_test_split")%string then
    match args, kwarg "train_size" kw with
    | [PArr [n; k]; PArr [n']], PInt t =>
        if (n =? n') && (t <=? n)
        then Ok (PTuple [PArr [t; k]; PArr [n - t; k]; PArr [t]; PArr [n - t]], st)
        else Err "train_test_split: arguments"
    | _, _ => Err "train_test_split: arguments"
    end
  else if (f =? "MinMaxScaler")%string then Ok (PObj "MinMaxScaler", st)
  else if (f =? "PegasosQSVC")%string then
    Ok (PEst (List.length (ests st)), mkPs (vars st) (ests st ++ [None]) (calls st))
  else Ok (PAny, st).

Definition call_method (obj : pyval) (m : string) (written : list pexpr)
    (args : list pyval) (st : pstate) : result (pyval * pstate) :=
  match obj with
  | PEst id => estimator_call id m written args st
  | PArr sh =>
      if (m =? "ravel")%string then Ok (PArr [size sh], st)
      else if (m =? "reshape")%string then
        match args with
        | [PTuple l] =>
            match ints l with
            | Some sh' => if size sh' =? size sh then Ok (PArr sh', st)
                          else Err "reshape: size mismatch"
            | None => Err "reshape: arguments"
            end
        | _ => Err "reshape: arguments"
        end
      else Ok (PAny, st)
  | PObj cls =>
      if (cls =? "MinMaxScaler")%string && (m =? "fit_transform")%string then
        match args with
        | [PArr sh] => Ok (PArr sh, st)
        | _ => Err "fit_transform: arguments"
        end
      else Ok (PAny, st)
  | PMod md =>
      if (md =? "numpy")%string then
        if (m =? "arange")%string then Ok (PArr [arange_len], st)
        else if (m =? "meshgrid")%string then
          match args with
          | [PArr [a]; PArr [b]] => Ok (PTuple [PArr [b; a]; PArr [b; a]], st)
          | _ => Err "meshgrid: arguments"
          end
        else if (m =? "column_stack")%string then
          match args with
          | [PTuple [PArr [a]; PArr [b]]] =>
              if a =? b then Ok (PArr [a; 2], st) else Err "column_stack: lengths differ"
          | _ => Err "column_stack: arguments"
          end
        else Ok (PAny, st)
      else Ok (PAny, st)
  | _ => Ok (PAny, st)
  end.

Definition get_attr (v : pyval) (a : string) : pyval :=
  match v with
  | PArr sh => if (a =? "shape")%string then PTuple (map PInt sh) else PAny
  | _ => PAny
  end.

Fixpoint eval (e : pexpr) (st : pstate) {struct e} : result (pyval * pstate) :=
  let eval_list :=
    fix eval_list (l : list pexpr) (st : pstate) : result (list pyval * pstate) :=
      match l with
      | [] => Ok ([], st)
      | x :: l' =>
          '(v, st1) <- eval x st ;;
          '(vs, st2) <- eval_list l' st1 ;;
          Ok (v :: vs, st2)
      end in
  let eval_kw :=
    fix eval_kw (l : list (string * pexpr)) (st : pstate)
      : result (list (string * pyval) * pstate) :=
      match l with
      | [] => Ok ([], st)
      | (k, x) :: l' =>
          '(v, st1) <- eval x st ;;
          '(vs, st2) <- eval_kw l' st1 ;;
          Ok ((k, v) :: vs, st2)
      end in
  match e with
  | Name x =>
      match assoc x (vars st) with
      | Some v => Ok (v, st)
      | None => Err "name is not defined"
      end
  | Int n => Ok (PInt n, st)
  | Float _ | Str _ | Bool _ | SliceAll => Ok (PAny, st)
  | FStr parts => '(_, st1) <- eval_list parts st ;; Ok (PAny, st1)
  | Attr x a => '(v, st1) <- eval x st ;; Ok (get_attr v a, st1)
  | Call (Attr obj m) args kw =>
      '(o, st1) <- eval obj st ;;
      '(vs, st2) <- eval_list args st1 ;;
      '(_, st3) <- eval_kw kw st2 ;;
      call_method o m args vs st3
  | Call f args kw =>
      '(fv, st1) <- eval f st ;;
      '(vs, st2) <- eval_list args st1 ;;
      '(kvs, st3) <- eval_kw kw st2 ;;
      match fv with
      | PFun name => call_function name vs kvs st3
      | _ => Ok (PAny, st3)
      end
  | Tup l => '(vs, st1) <- eval_list l st ;; Ok (PTuple vs, st1)
  | Neg a => '(_, st1) <- eval a st ;; Ok (PAny, st1)
  | Add a b | Eq a b =>
      '(_, st1) <- eval a st ;; '(_, st2) <- eval b st1 ;; Ok (PAny, st2)
  | Index a idx =>
      '(_, st1) <- eval a st ;; '(_, st2) <- eval_list idx st1 ;; Ok (PAny, st2)
  end.

Fixpoint bind_targets (ts : list string) (vs : list pyval) (st : pstate) : result pstate :=
  match ts, vs with
  | [], [] => Ok st
  | t :: ts', v :: vs' => bind_targets ts' vs' (set_var t v st)
  | _, _ => Err "cannot unpack"
  end.

Definition exec (s : stmt) (st : pstate) : result pstate :=
  match s with
  | FromImport _ names => Ok (fold_left (fun acc n => set_var n (PFun n) acc) names st)
  | FromImportAs _ name alias => Ok (set_var alias (PFun name) st)
  | Import module => Ok (set_var module (PMod module) st)
  | ImportAs module alias => Ok (set_var alias (PMod module) st)
  | Assign [t] e => '(v, st1) <- eval e st ;; Ok (set_var t v st1)
  | Assign ts e =>
      '(v, st1) <- eval e st ;;
      match v with
      | PTuple vs => bind_targets ts vs st1
      | _ => Err "cannot unpack"
      end
  | SetAttr obj _ e => '(_, st1) <- eval obj st ;; '(_, st2) <- eval e st1 ;; Ok st2
  | Expr e => '(_, st1) <- eval e st ;; Ok st1
  | Magic _ => Ok st
  end.

Fixpoint exec_all (l : list stmt) (st : pstate) : result pstate :=
  match l with
  | [] => Ok st
  | s :: l' => st1 <- exec s st ;; exec_all l' st1
  end.

(** The code cells run top to bottom in one kernel, which knows the
    built-in [print]. *)
Definition run_cells (cells : list cell) : result pstate :=
  exec_all (concat cells) (mkPs [("print", PFun "print")] [] []).

End Library.

(** *** The code cells of [07_pegasos_qsvc.ipynb] *)

Definition np_attr (a : string) : pexpr := Attr (Name "np") a.
Definition plt (f : string) (args : list pexpr) (kw : list (string * pexpr)) : pexpr :=
  Call (Attr (Name "plt") f) args kw.

(** [feats[:, col][labels == cls]] *)
Definition pick (feats : string) (col : nat) (labels : string) (cls : nat) : pexpr :=
  Index (Index (Name feats) [SliceAll; Int col]) [Eq (Name labels) (Int cls)].

Definition scatter (feats labels : string) (cls : nat) (marker face edge label : string) : stmt :=
  Expr (plt "scatter"
          [pick feats 0 labels cls; pick feats 1 labels cls]
          [("marker", Str marker); ("facecolors", Str face);
           ("edgecolors", Str edge); ("label", Str label)]).

Definition grid_axis : pexpr :=
  Call (np_attr "arange")
    [Neg (Name "margin"); Add (np_attr "pi") (Name "margin"); Name "grid_step"] [].

Definition cells : list cell :=
  [ (* impressed-laser *)
    [ FromImport "sklearn.datasets" ["make_blobs"];
      Assign ["features"; "labels"]
        (Call (Name "make_blobs") []
           [("n_samples", Int 20); ("n_features", Int 2); ("centers", Int 2);
            ("random_state", Int 3); ("shuffle", Bool true)]) ];
    (* adolescent-composer *)
    [ ImportAs "numpy" "np";
      FromImport "sklearn.model_selection" ["train_test_split"];
      FromImport "sklearn.preprocessing" ["MinMaxScaler"];
      Assign ["features"]
        (Call (Attr (Call (Name "MinMaxScaler") []
                       [("feature_range", Tup [Int 0; np_attr "pi"])])
                    "fit_transform")
              [Name "features"] []);
      Assign ["train_features"; "test_features"; "train_labels"; "test_labels"]
        (Call (Name "train_test_split") [Name "features"; Name "labels"]
           [("train_size", Int 15); ("shuffle", Bool false)]) ];
    (* dying-dispatch *)
    [ Assign ["num_qubits"] (Int 2);
      Assign ["tau"] (Int 100);
      Assign ["C"] (Int 1000) ];
    (* automated-allergy *)
    [ FromImport "qiskit.circuit.library" ["ZFeatureMap"];
      FromImport "qiskit_machine_learning.utils" ["algorithm_globals"];
      FromImport "qiskit_machine_learning.kernels" ["FidelityQuantumKernel"];
      FromImport "qiskit_machine_learning.state_fidelities" ["ComputeUncompute"];
      FromImportAs "qiskit.primitives" "StatevectorSampler" "Sampler";
      Assign ["sampler"] (Call (Name "Sampler") [] []);
      Assign ["fidelity"] (Call (Name "ComputeUncompute") [] [("sampler", Name "sampler")]);
      SetAttr (Name "algorithm_globals") "random_seed" (Int 12345);
      Assign ["feature_map"]
        (Call (Name "ZFeatureMap") []
           [("feature_dimension", Name "num_qubits"); ("reps", Int 1)]);
      Assign ["qkernel"]
        (Call (Name "FidelityQuantumKernel") []
           [("fidelity", Name "fidelity"); ("feature_map", Name "feature_map")]) ];
    (* representative-thumb *)
    [ FromImport "qiskit_machine_learning.algorithms" ["PegasosQSVC"];
      Assign ["pegasos_qsvc"]
        (Call (Name "PegasosQSVC") []
           [("quantum_kernel", Name "qkernel"); ("C", Name "C"); ("num_steps", Name "tau")]);
      Expr (Call (Attr (Name "pegasos_qsvc") "fit")
              [Name "train_features"; Name "train_labels"] []);
      Assign ["pegasos_score"]
        (Call (Attr (Name "pegasos_qsvc") "score")
           [Name "test_features"; Name "test_labels"] []);
      Expr (Call (Name "print")
              [FStr [Str "PegasosQSVC classification test score: "; Name "pegasos_score"]] []) ];
    (* judicial-pottery *)
    [ Assign ["grid_step"] (Float "0.2");
      Assign ["margin"] (Float "0.2");
      Assign ["grid_x"; "grid_y"]
        (Call (np_attr "meshgrid") [grid_axis; grid_axis] []) ];
    (* competitive-outdoors *)
    [ Assign ["meshgrid_features"]
        (Call (np_attr "column_stack")
           [Tup [Call (Attr (Name "grid_x") "ravel") [] [];
                 Call (Attr (Name "grid_y") "ravel") [] []]] []);
      Assign ["meshgrid_colors"]
        (Call (Attr (Name "pegasos_qsvc") "predict") [Name "meshgrid_features"] []) ];
    (* monetary-knife *)
    [ ImportAs "matplotlib.pyplot" "plt";
      Expr (plt "figure" [] [("figsize", Tup [Int 5; Int 5])]);
      Assign ["meshgrid_colors"]
        (Call (Attr (Name "meshgrid_colors") "reshape") [Attr (Name "grid_x") "shape"] []);
      Expr (plt "pcolormesh" [Name "grid_x"; Name "grid_y"; Name "meshgrid_colors"]
              [("cmap", Str "RdBu"); ("shading", Str "auto")]);
      scatter "train_features" "train_labels" 0 "s" "w" "r" "A train";
      scatter "train_features" "train_labels" 1 "o" "w" "b" "B train";
      scatter "test_features" "test_labels" 0 "s" "r" "r" "A test";
      scatter "test_features" "test_labels" 1 "o" "b" "b" "B test";
      Expr (plt "legend" []
              [("bbox_to_anchor", Tup [Float "1.05"; Int 1]); ("loc", Str "upper left");
               ("borderaxespad", Float "0.0")]);
      Expr (plt "title" [Str "Pegasos Classification"] []);
      Expr (plt "show" [] []) ];
    (* imperial-promise *)
    [ Import "tutorial_magics";
      Magic "qiskit_version_table";
      Magic "qiskit_copyright" ] ].

End Notebook.

(* ===================================================================== *)
(** ** Observations on runs, used to state the properties                  *)
(* ===================================================================== *)

Import Main.

(** What step [i] contributes to the log when it is reached in [st]. *)
Definition step_outcome (w : world) (g : github_ctx) (m : combination) (i : nat)
    (s : step) (st : jstate) : outcome :=
  if step_runs w g m i s st then
    match s_action s with
    | Run _ body =>
        if fst (run_script (cmd_status w i) (cmd_wrote w i) body (mkFs EmptyString (files (js_fs st)))) =? 0
        then Succeeded else Failed
    | Uses act args =>
        match fst (fst (run_action w i (step_env w g m i st) act args st)) with
        | Succeeded => Succeeded
        | _ => Failed
        end
    end
  else Skipped.

Definition outcome_eqb (a b : outcome) : bool :=
  match a, b with
  | Succeeded, Succeeded | Failed, Failed | Skipped, Skipped => true
  | _, _ => false
  end.

(** Outcome of step [k] in a finished job instance. *)
Definition outcome_at (r : jstate) (k : nat) : option outcome := nth_error (js_log r) k.

(** Did step [k] run (whatever its result)? *)
Definition executed (r : jstate) (k : nat) : bool :=
  match outcome_at r k with
  | Some Succeeded | Some Failed => true
  | _ => false
  end.

Definition succeeded (r : jstate) (k : nat) : bool :=
  match outcome_at r k with
  | Some Succeeded => true
  | _ => false
  end.

(** A step is named by its [name:], or else by its action or first command. *)
Definition step_label (s : step) : string :=
  match s_name s with
  | Some t => render (mkEnv (mkGithub "" "" "" "" "" "" []) [] (mkStatus true false)) t
  | None =>
      match s_action s with
      | Uses act _ => act
      | Run _ (Cmd argv :: _) => String.concat " " argv
      | Run _ _ => EmptyString
      end
  end.

Definition uses_action (act : string) (s : step) : bool :=
  match s_action s with
  | Uses a _ => (a =? act)%string
  | Run _ _ => false
  end.

Definition step_arg (key : string) (en : env) (s : step) : string :=
  match s_action s with
  | Uses _ args => arg key en args
  | Run _ _ => EmptyString
  end.

(** The artifact names (with the target directories) that a job's
    download steps ask for, and the names (with the source paths) that
    its upload steps store under, for one matrix combination. *)
Definition requested (g : github_ctx) (j : job) (m : combination) : list (string * string) :=
  let en := mkEnv g m (mkStatus true false) in
  map (fun s => (step_arg "name" en s, step_arg "path" en s))
      (filter (uses_action "actions/download-artifact@v4") (j_steps j)).

Definition offered (g : github_ctx) (j : job) (m : combination) : list (string * string) :=
  let en := mkEnv g m (mkStatus true false) in
  map (fun s => (step_arg "name" en s, step_arg "path" en s))
      (filter (uses_action "actions/upload-artifact@v4") (j_steps j)).

Definition count (x : string) (l : list string) : nat :=
  List.length (filter (String.eqb x) l).

(** [<os>-<python-version>] of a combination. *)
Definition os_version (m : combination) : string :=
  (to_string (matrix_lookup m "os") ++ "-" ++ to_string (matrix_lookup m "python-version"))%string.

(** A step that runs only while the job is succeeding: it has no [if], or
    an [if] without status function. *)
Definition guarded (s : step) : bool :=
  match s_if s with
  | None => true
  | Some e => negb (has_status_fn e)
  end.

(** Executable form of the scheduler's rule, for replaying given traces. *)
Definition all_instances (f : nat -> bool) (j : job) : bool :=
  forallb f (seq 0 (instances j)).

Definition is_success (s : jstatus) : bool :=
  match s with Done CSuccess => true | _ => false end.

Definition is_done (s : jstatus) : bool :=
  match s with Done _ => true | _ => false end.

Definition needed (jobs : list job) (j : job) : list job :=
  filter (fun p => existsb (String.eqb (j_id p)) (j_needs j)) jobs.

Definition find_job (jobs : list job) (id : string) : option job :=
  find (fun j => (j_id j =? id)%string) jobs.

Definition check_step (jobs : list job) (st : sstate) (e : sevent) : option sstate :=
  match find_job jobs (fst (target e)) with
  | None => None
  | Some j =>
      let k := snd (target e) in
      if negb (k <? instances j) then None else
      match e, st (j_id j) k with
      | Start _ _, Waiting =>
          if forallb (fun p => all_instances (fun i => is_success (st (j_id p) i)) p) (needed jobs j)
          then Some (upd st (j_id j) k Running) else None
      | Finish _ _ CSuccess, Running => Some (upd st (j_id j) k (Done CSuccess))
      | Finish _ _ CFailure, Running => Some (upd st (j_id j) k (Done CFailure))
      | Skip _ _, Waiting =>
          if forallb (fun p => all_instances (fun i => is_done (st (j_id p) i)) p) (needed jobs j)
             && existsb (fun p => negb (all_instances (fun i => is_success (st (j_id p) i)) p))
                        (needed jobs j)
          then Some (upd st (j_id j) k (Done CSkipped)) else None
      | Cancel _ _, Waiting | Cancel _ _, Running => Some (upd st (j_id j) k (Done CCancelled))
      | _, _ => None
      end
  end.

Fixpoint replay (jobs : list job) (st : sstate) (tr : list sevent) : option sstate :=
  match tr with
  | [] => Some st
  | e :: tr' =>
      match check_step jobs st e with
      | Some st' => replay jobs st' tr'
      | None => None
      end
  end.

(** A run in which every instance of Checks, MachineLearning and
    Tutorials starts and finishes with success. *)
Definition full_run : list sevent :=
  flat_map (fun j => flat_map (fun k => [Start (j_id j) k; Finish (j_id j) k CSuccess])
                              (seq 0 (instances j)))
           [Checks; MachineLearning; Tutorials].

Definition replays (jobs : list job) (tr : list sevent) : bool :=
  match replay jobs init tr with Some _ => true | None => false end.

(** A world in which nothing fails and nobody cancels. *)
Definition calm : world := mkWorld (fun _ _ => 0) (fun _ _ => false) (fun _ => true) None.

(** A world in which nothing fails, but the run is cancelled when step
    [k] is about to start. *)
Definition cancelled_before (k : nat) : world :=
  mkWorld (fun _ _ => 0) (fun _ _ => false) (fun _ => true) (Some k).

(** A push to [main]. *)
Definition push_main : github_ctx :=
  mkGithub "qiskit-community/qiskit-machine-learning" "refs/heads/main" "" ""
    "Machine Learning Unit Tests" "push" [].

Definition ubuntu_39 : combination :=
  [("os", yaml_plain "ubuntu-latest"); ("python-version", yaml_plain "3.9")].

(** The condition of MachineLearning's "Coverage combine" on a combination. *)
Definition coverage_guard (m : combination) : bool :=
  loose_eqb (matrix_lookup m "os") (VStr "ubuntu-latest")
  && loose_eqb (matrix_lookup m "python-version") (VNum (mkDec 39 1)).

(** MachineLearning's steps "Deprecation Messages", "Coverage combine"
    and the upload that follows them. *)
Definition dep_step : step := nth 7 (j_steps MachineLearning) (download "" "").
Definition cov_step : step := nth 8 (j_steps MachineLearning) (download "" "").
Definition up_step : step := nth 9 (j_steps MachineLearning) (download "" "").

(** What a MachineLearning instance puts into its artifact. *)
Definition ml_artifact (m : combination) : artifact :=
  (os_version m, if coverage_guard m then ["ml.dep"; "ml.dat"] else ["ml.dep"]).

(** The artifact names the aggregation job asks for, and the names the
    MachineLearning instances store under, one per combination. *)
Definition download_names (g : github_ctx) (m : combination) : list string :=
  map fst (requested g Deprecation_Messages_and_Coverage m).

Definition upload_names (g : github_ctx) : list string :=
  flat_map (fun m => map fst (offered g MachineLearning m)) (expand (j_matrix MachineLearning)).

(** A combination with its values printed. *)
Definition show (c : combination) : list (string * string) :=
  map (fun kv => (fst kv, to_string (snd kv))) c.

(** The hours and minutes of a day. *)
Definition day_minutes : list (nat * nat) := list_prod (seq 0 24) (seq 0 60).

(** The literal pattern of a string. *)
Fixpoint lits (p : string) : list gtok :=
  match p with
  | EmptyString => []
  | String c p' => GLit c :: lits p'
  end.

(** Commands and steps that touch neither the followed files nor the
    artifacts of the run. *)
Definition quiet_cmd (c : sh) : bool :=
  match c with
  | Cmd (prog :: _) =>
      negb (existsb (String.eqb prog) ["cd"; "mv"; "tar"; "wget"; "coverage3"; "python"])
  | _ => false
  end.

Definition quiet (s : step) : bool :=
  match s_action s with
  | Uses act _ =>
      negb (act =? "actions/upload-artifact@v4")%string
      && negb (act =? "actions/download-artifact@v4")%string
  | Run _ body => forallb quiet_cmd body
  end.

Definition has_suffix (suf s : string) : bool :=
  let n := String.length s in
  let k := String.length suf in
  (k <=? n) && (String.substring (n - k) k s =? suf)%string.

(* ===================================================================== *)
(** ** Observations for the further properties                             *)
(* ===================================================================== *)

(** While a job instance is still succeeding, its log holds no failure. *)
Definition healthy (st : jstate) : Prop :=
  js_ok st = true -> Forall (fun o => o <> Failed) (js_log st).

(** A MachineLearning instance whose [make lint] fails. *)
Definition lint_fails : world :=
  mkWorld (fun i _ => if i =? 4 then 1 else 0) (fun _ _ => false) (fun _ => true) None.

(** Is an artifact of that name among the artifacts of the run? *)
Definition has_artifact (d : string) (store : list artifact) : bool :=
  match assoc d store with Some _ => true | None => false end.

(** Steps that cannot fail when nothing fails outside: steps without
    [if] that run a script exiting with 0, or use an action other than an
    upload which, if it is a download, finds its artifact. *)
Definition fine_step (store : list artifact) (s : step) : Prop :=
  s_if s = None /\
  match s_action s with
  | Run _ body => forall wrote fs, fst (run_script (fun _ => 0) wrote body fs) = 0
  | Uses act args =>
      (act =? "actions/upload-artifact@v4")%string = false /\
      forall en, (act =? "actions/download-artifact@v4")%string = true ->
                 has_artifact (arg "name" en args) store = true
  end.

(** Is the run on a stable branch, as the steps' conditions see it? *)
Definition on_stable (g : github_ctx) : bool :=
  String.prefix "refs/heads/stable" (lower (ref g))
  || String.prefix "stable/" (lower (base_ref g)).

(** A push to the branch [stable/0.7]. *)
Definition push_stable : github_ctx :=
  mkGithub "qiskit-community/qiskit-machine-learning" "refs/heads/stable/0.7" "" ""
    "Machine Learning Unit Tests" "push" [].

(** The steps "Run make html" and "Run upload documentation" of Checks,
    and the archive the former writes. *)
Definition html_step : step := nth 10 (j_steps Checks) (download "" "").
Definition doc_upload_step : step := nth 11 (j_steps Checks) (download "" "").
Definition doc_archive : string := "docs/_build/html/artifacts/documentation.tar.gz".

(** The commands of "Run make html": those that lead to [tar], and [tar]. *)
Definition html_cmds : list (list string) :=
  [["make"; "clean_sphinx"]; ["make"; "html"]; ["cd"; "docs/_build/html"];
   ["mkdir"; "artifacts"]].
Definition tar_cmd : list string :=
  ["tar"; "-zcvf"; "artifacts/documentation.tar.gz"; "--exclude=./artifacts"; "."].

(** In "Run make html" every command before [tar] exits with 0, and [tar]
    writes the archive, whether it then exits with 0 or not. *)
Definition archive_written (w : world) : bool :=
  forallb (fun a => cmd_status w 10 a =? 0) html_cmds
  && ((cmd_status w 10 tar_cmd =? 0) || cmd_wrote w 10 tar_cmd).

(** A run of Checks in which [tar] could not read a file: it writes the
    archive and exits with 2. *)
Definition tar_fails : world :=
  mkWorld (fun _ a => match a with "tar" :: _ => 2 | _ => 0 end)
          (fun _ _ => true) (fun _ => true) None.

(** A run of Checks in which [make html] fails. *)
Definition html_fails : world :=
  mkWorld (fun _ a => match a with ["make"; "html"] => 2 | _ => 0 end)
          (fun _ _ => true) (fun _ => true) None.

(** A run in which an instance of MachineLearning fails. *)
Definition failing_run : list sevent :=
  [Start "MachineLearning" 3; Finish "MachineLearning" 3 CFailure;
   Start "Checks" 0; Finish "Checks" 0 CSuccess].


(* ===================================================================== *)
(** ** Properties                                                          *)
(* ===================================================================== *)

Example plain_39 : to_string (yaml_plain "3.9") = "3.9".
Proof. reflexivity. Qed.

Example plain_310_loses_zero : to_string (yaml_plain "3.10") = "3.1".
Proof. reflexivity. Qed.

Example quoted_310_keeps_zero : to_string (yaml_quoted "3.10") = "3.10".
Proof. reflexivity. Qed.

Example plain_os_is_string : yaml_plain "ubuntu-latest" = VStr "ubuntu-latest".
Proof. reflexivity. Qed.

(** *** Generic facts about the run of a job instance *)

Section RunFacts.

Variables (w : world) (g : github_ctx) (m : combination).

Lemma run_step_log i s st :
  js_log (run_step w g m i s st) = js_log st ++ [step_outcome w g m i s st].
Proof.
  unfold run_step, step_outcome.
  destruct (step_runs w g m i s st); [|reflexivity].
  destruct (s_action s) as [sh body|act args].
  - destruct (run_script _ _ body _) as [code fs']; simpl.
    destruct (code =? 0); reflexivity.
  - destruct (run_action _ _ _ act args st) as [[o fs'] store']; simpl.
    destruct o; reflexivity.
Qed.

Lemma run_steps_app l1 : forall l2 i st,
  run_steps w g m i (l1 ++ l2) st
  = run_steps w g m (i + List.length l1) l2 (run_steps w g m i l1 st).
Proof.
  induction l1 as [|s l1 IH]; intros l2 i st; simpl.
  - now rewrite Nat.add_0_r.
  - rewrite IH. f_equal. lia.
Qed.

Lemma run_steps_log_length l : forall i st,
  List.length (js_log (run_steps w g m i l st)) = List.length (js_log st) + List.length l.
Proof.
  induction l as [|s l IH]; intros i st; simpl; [lia|].
  rewrite IH, run_step_log, length_app. simpl. lia.
Qed.

Lemma run_steps_log_prefix l : forall i st,
  exists outs, js_log (run_steps w g m i l st) = js_log st ++ outs.
Proof.
  induction l as [|s l IH]; intros i st; simpl.
  - exists []. now rewrite app_nil_r.
  - destruct (IH (S i) (run_step w g m i s st)) as [outs E].
    rewrite E, run_step_log, <- app_assoc. eauto.
Qed.

(** The log entry of step [k] is the outcome of that step in the state
    that the steps before it produce. *)
Lemma outcome_at_step (l : list step) k s :
  nth_error l k = Some s ->
  forall st, js_log st = [] ->
  outcome_at (run_steps w g m 0 l st) k
  = Some (step_outcome w g m k s (run_steps w g m 0 (firstn k l) st)).
Proof.
  intros Hk st Hst.
  assert (Hlen : k < List.length l) by (apply nth_error_Some; congruence).
  rewrite <- (firstn_skipn k l) at 1.
  destruct (skipn k l) as [|s' rest] eqn:Hs.
  { apply (f_equal (@List.length step)) in Hs. rewrite length_skipn in Hs. simpl in Hs. lia. }
  assert (s' = s).
  { rewrite <- (firstn_skipn k l), Hs in Hk.
    rewrite nth_error_app2 in Hk by (rewrite length_firstn; lia).
    rewrite length_firstn, Nat.min_l, Nat.sub_diag in Hk by lia. simpl in Hk. congruence. }
  subst s'.
  rewrite run_steps_app. simpl.
  rewrite length_firstn, Nat.min_l by lia.
  set (stk := run_steps w g m 0 (firstn k l) st).
  destruct (run_steps_log_prefix rest (S k) (run_step w g m k s stk)) as [outs E].
  unfold outcome_at. rewrite E, run_step_log.
  assert (Hl : List.length (js_log stk) = k).
  { unfold stk. rewrite run_steps_log_length, Hst, length_firstn. simpl. lia. }
  rewrite <- app_assoc. rewrite nth_error_app2 by lia.
  rewrite Hl, Nat.sub_diag. reflexivity.
Qed.

Lemma executed_at_step (l : list step) k s st :
  nth_error l k = Some s -> js_log st = [] ->
  executed (run_steps w g m 0 l st) k
  = step_runs w g m k s (run_steps w g m 0 (firstn k l) st).
Proof.
  intros Hk Hst. unfold executed. rewrite (outcome_at_step l k s Hk st Hst).
  unfold step_outcome. destruct (step_runs _ _ _ _ _ _); [|reflexivity].
  destruct (s_action s) as [sh body|act args].
  - destruct (fst _ =? 0); reflexivity.
  - destruct (fst (fst _)); reflexivity.
Qed.

Lemma succeeded_at_step (l : list step) k s st :
  nth_error l k = Some s -> js_log st = [] ->
  succeeded (run_steps w g m 0 l st) k
  = outcome_eqb (step_outcome w g m k s (run_steps w g m 0 (firstn k l) st)) Succeeded.
Proof.
  intros Hk Hst. unfold succeeded. rewrite (outcome_at_step l k s Hk st Hst).
  destruct (step_outcome _ _ _ _ _ _); reflexivity.
Qed.

Lemma cancelled_mono i j : i <= j -> cancelled w i = true -> cancelled w j = true.
Proof.
  unfold cancelled. destruct (cancel_at w); [|discriminate].
  rewrite !Nat.leb_le. lia.
Qed.

Lemma not_cancelled_never i : cancel_at w = None -> cancelled w i = false.
Proof. unfold cancelled. now intros ->. Qed.

(** A guarded step runs only while every earlier step has succeeded and
    the run is not cancelled. *)
Lemma guarded_runs i s st :
  guarded s = true -> step_runs w g m i s st = true ->
  js_ok st = true /\ cancelled w i = false.
Proof.
  unfold guarded, step_runs, effective_if.
  destruct (s_if s) as [e|].
  - intros Hg. apply negb_true_iff in Hg. rewrite Hg. simpl.
    destruct (js_ok st), (cancelled w i); simpl; intros H; try discriminate; auto.
  - intros _. simpl.
    destruct (js_ok st), (cancelled w i); simpl; intros H; try discriminate; auto.
Qed.

(** A step whose condition is [!cancelled()] runs whenever the run is
    not cancelled. *)
Lemma not_cancelled_runs i s st :
  s_if s = Some (ENot ECancelled) -> step_runs w g m i s st = negb (cancelled w i).
Proof. unfold step_runs. intros ->. reflexivity. Qed.

Lemma run_step_ok_mono i s st : js_ok (run_step w g m i s st) = true -> js_ok st = true.
Proof.
  unfold run_step. destruct (step_runs w g m i s st); [|auto].
  destruct (s_action s) as [sh body|act args].
  - destruct (run_script _ _ body _) as [code fs']. destruct (code =? 0); simpl; auto; discriminate.
  - destruct (run_action _ _ _ act args st) as [[o fs'] store']. destruct o; simpl; auto; discriminate.
Qed.

Lemma unconditional_step_runs i s st :
  s_if s = None -> step_runs w g m i s st = js_ok st && negb (cancelled w i).
Proof. unfold step_runs. intros ->. reflexivity. Qed.

Lemma guarded_step_runs i s st e :
  s_if s = Some e -> has_status_fn e = false ->
  step_runs w g m i s st
  = js_ok st && negb (cancelled w i) && truthy (eval (mkEnv g m (mkStatus true false)) e).
Proof.
  unfold step_runs, effective_if, step_env. intros -> ->. simpl.
  destruct (js_ok st), (cancelled w i); reflexivity.
Qed.

Lemma ok_after_step i s st :
  js_ok (run_step w g m i s st)
  = js_ok st && negb (outcome_eqb (step_outcome w g m i s st) Failed).
Proof.
  unfold run_step, step_outcome.
  destruct (step_runs w g m i s st); [|simpl; now rewrite andb_true_r].
  destruct (s_action s) as [sh body|act args].
  - destruct (run_script _ _ body _) as [code fs']; simpl.
    destruct (code =? 0); simpl; [now rewrite andb_true_r | now rewrite andb_false_r].
  - destruct (run_action _ _ _ act args st) as [[o fs'] store']; simpl.
    destruct o; simpl; now rewrite ?andb_true_r, ?andb_false_r.
Qed.

(** Only an upload step that runs changes the artifacts of the run. *)
Lemma store_after_step i s st :
  uses_action "actions/upload-artifact@v4" s = false \/ step_runs w g m i s st = false ->
  js_store (run_step w g m i s st) = js_store st.
Proof.
  unfold run_step, uses_action. intros H.
  destruct (step_runs w g m i s st); [|reflexivity].
  destruct H as [H|H]; [|discriminate].
  destruct (s_action s) as [sh body|act args].
  - destruct (run_script _ _ body _) as [code fs']. destruct (code =? 0); reflexivity.
  - unfold run_action. rewrite H.
    destruct (negb (action_ok w i)); [reflexivity|].
    destruct (act =? "actions/download-artifact@v4")%string; [|reflexivity].
    destruct (assoc _ (js_store st)); reflexivity.
Qed.

(** Once a step has failed or the run is cancelled, guarded uploads no
    longer happen. *)
Lemma stalled_store l :
  Forall (fun s => uses_action "actions/upload-artifact@v4" s = true -> guarded s = true) l ->
  forall i st,
    js_ok st = false \/ cancelled w i = true ->
    js_store (run_steps w g m i l st) = js_store st.
Proof.
  induction 1 as [|s l Hs Hl IH]; intros i st Hbad; simpl; [reflexivity|].
  rewrite IH.
  - apply store_after_step.
    destruct (uses_action _ s) eqn:Hu; [right|now left].
    destruct (step_runs w g m i s st) eqn:Hr; [|reflexivity].
    destruct (guarded_runs i s st (Hs eq_refl) Hr) as [Hok Hc].
    destruct Hbad; congruence.
  - destruct Hbad as [Hok|Hc].
    + left. destruct (js_ok (run_step w g m i s st)) eqn:E; [|reflexivity].
      apply run_step_ok_mono in E. congruence.
    + right. apply (cancelled_mono i (S i)); [lia|assumption].
Qed.

End RunFacts.

(** *** Steps that leave files and artifacts alone; the MachineLearning artifact *)

Section Artifacts.

Variables (w : world) (g : github_ctx) (m : combination).

Lemma quiet_cmd_effect argv st : quiet_cmd (Cmd argv) = true -> effect argv st = st.
Proof.
  destruct argv as [|prog args]; [discriminate|].
  unfold quiet_cmd, effect. simpl existsb. rewrite !orb_false_r.
  rewrite !negb_orb, !andb_true_iff, !negb_true_iff.
  intros (-> & -> & -> & -> & -> & ->). reflexivity.
Qed.

Lemma quiet_script ext wrote body : forallb quiet_cmd body = true ->
  forall fs, snd (run_script ext wrote body fs) = fs.
Proof.
  induction body as [|c body IH]; intros H fs; [reflexivity|].
  simpl in H. apply andb_true_iff in H. destruct H as [Hc Hb].
  destruct c as [argv| | | | |]; try discriminate.
  simpl. rewrite (quiet_cmd_effect argv fs Hc).
  destruct (status_of ext argv =? 0); [apply IH; assumption|].
  destruct (wrote argv), fs; reflexivity.
Qed.

Lemma quiet_step i s st : quiet s = true ->
  files (js_fs (run_step w g m i s st)) = files (js_fs st) /\
  js_store (run_step w g m i s st) = js_store st.
Proof.
  unfold quiet, run_step. intros H.
  destruct (step_runs w g m i s st); [|split; reflexivity].
  destruct (s_action s) as [sh body|act args].
  - pose proof (quiet_script (cmd_status w i) (cmd_wrote w i) body H (mkFs EmptyString (files (js_fs st)))) as E.
    destruct (run_script _ _ body _) as [code fs']. simpl in E. subst fs'.
    destruct (code =? 0); split; reflexivity.
  - apply andb_true_iff in H. destruct H as [H1 H2].
    apply negb_true_iff in H1, H2.
    unfold run_action. rewrite H1, H2.
    destruct (negb (action_ok w i)); split; reflexivity.
Qed.

Lemma quiet_steps l : forallb quiet l = true -> forall i st,
  files (js_fs (run_steps w g m i l st)) = files (js_fs st) /\
  js_store (run_steps w g m i l st) = js_store st.
Proof.
  induction l as [|s l IH]; intros H i st; [split; reflexivity|].
  simpl in H. apply andb_true_iff in H. destruct H as [Hs Hl].
  simpl. destruct (IH Hl (S i) (run_step w g m i s st)) as [E1 E2].
  destruct (quiet_step i s st Hs) as [E3 E4]. split; congruence.
Qed.

Ltac case_status :=
  repeat (first
    [ match goal with
      | H : (?c =? 0) = _ |- context [?c =? 0] => rewrite H
      end
    | match goal with
      | |- context [cmd_status ?w ?i ?a =? 0] => destruct (cmd_status w i a =? 0) eqn:?
      end
    | match goal with
      | |- context [cmd_wrote ?w ?i ?a] => destruct (cmd_wrote w i a) eqn:?
      end ];
    cbn -[Nat.eqb]).

Lemma string_app_nil (s : string) : (s ++ "")%string = s.
Proof. induction s; simpl; congruence. Qed.

Lemma coverage_guard_eval st :
  truthy (eval (mkEnv g m st)
            (EAnd (EEq (EMatrix "os") (str "ubuntu-latest"))
                  (EEq (EMatrix "python-version") (num "3.9"))))
  = coverage_guard m.
Proof.
  unfold coverage_guard. simpl.
  destruct (loose_eqb (matrix_lookup m "os") (VStr "ubuntu-latest")); reflexivity.
Qed.

Lemma dep_step_good cwd log :
  cancelled w 7 = false ->
  let st' := run_step w g m 7 dep_step (mkJs true (mkFs cwd []) [] log) in
  js_ok st' = false /\ js_store st' = [] \/
  exists log', st' = mkJs true (mkFs "" ["ci-artifact-data/ml.dep"]) [] log'.
Proof.
  intros C7. unfold run_step.
  rewrite unconditional_step_runs by reflexivity. simpl js_ok. rewrite C7.
  cbn -[Nat.eqb]. case_status;
    first [left; split; reflexivity | right; eexists; reflexivity].
Qed.

Lemma cov_step_good log :
  cancelled w 8 = false ->
  let st' := run_step w g m 8 cov_step (mkJs true (mkFs "" ["ci-artifact-data/ml.dep"]) [] log) in
  js_ok st' = false /\ js_store st' = [] \/
  exists log', st' = mkJs true
                       (mkFs "" (if coverage_guard m
                                 then ["ci-artifact-data/ml.dep"; "ci-artifact-data/ml.dat"]
                                 else ["ci-artifact-data/ml.dep"])) [] log'.
Proof.
  intros C8. unfold run_step.
  rewrite (guarded_step_runs w g m 8 cov_step _ _ eq_refl eq_refl).
  rewrite coverage_guard_eval. simpl js_ok. rewrite C8.
  destruct (coverage_guard m); simpl andb; cbv iota.
  - cbn -[Nat.eqb]. case_status;
      first [left; split; reflexivity | right; eexists; reflexivity].
  - right. eexists. reflexivity.
Qed.

Lemma up_step_store log i :
  i = 9 ->
  let st' := run_step w g m i up_step
               (mkJs true
                  (mkFs "" (if coverage_guard m
                            then ["ci-artifact-data/ml.dep"; "ci-artifact-data/ml.dat"]
                            else ["ci-artifact-data/ml.dep"])) [] log) in
  js_store st' = [] \/ js_store st' = [ml_artifact m].
Proof.
  intros ->. unfold run_step.
  destruct (step_runs _ _ _ _ _ _); [|now left].
  unfold ml_artifact, os_version.
  change (s_action up_step)
    with (Uses "actions/upload-artifact@v4"
            [("name", [Sub (EMatrix "os"); Lit "-"; Sub (EMatrix "python-version")]);
             ("path", [Lit "./ci-artifact-data/*"])]).
  unfold run_action.
  destruct (action_ok w 9); [|now left].
  right. destruct (coverage_guard m); cbn; rewrite string_app_nil; reflexivity.
Qed.

Lemma ml_uploads_shape :
  uploads w g MachineLearning m = [] \/ uploads w g MachineLearning m = [ml_artifact m].
Proof.
  unfold uploads, run_job.
  change (j_steps MachineLearning)
    with (firstn 7 (j_steps MachineLearning) ++ skipn 7 (j_steps MachineLearning)).
  rewrite run_steps_app.
  destruct (quiet_steps (firstn 7 (j_steps MachineLearning)) eq_refl 0 (start [])) as [Hf Hs].
  set (st7 := run_steps w g m 0 (firstn 7 (j_steps MachineLearning)) (start [])) in *.
  change (0 + List.length (firstn 7 (j_steps MachineLearning))) with 7.
  simpl in Hf, Hs.
  destruct st7 as [ok [cwd fl] store log]. simpl in Hf, Hs. subst fl store.
  assert (Hg : forall k, 7 <= k <= 9 ->
                 Forall (fun s => uses_action "actions/upload-artifact@v4" s = true ->
                                  guarded s = true)
                        (skipn k (j_steps MachineLearning))).
  { intros k Hk.
    assert (Hk' : k = 7 \/ k = 8 \/ k = 9) by lia.
    destruct Hk' as [->|[->| ->]]; simpl;
      repeat constructor; simpl; intros; first [reflexivity | discriminate]. }
  destruct ok; [|left; apply (stalled_store w g m _ (Hg 7 ltac:(lia))); now left].
  destruct (cancelled w 7) eqn:C7; [left; apply (stalled_store w g m _ (Hg 7 ltac:(lia))); now right|].
  change (skipn 7 (j_steps MachineLearning)) with (dep_step :: skipn 8 (j_steps MachineLearning)).
  cbn [run_steps].
  destruct (dep_step_good cwd log C7) as [[Hok Hst]|[log8 E]].
  { left. rewrite (stalled_store w g m _ (Hg 8 ltac:(lia))); [assumption | now left]. }
  rewrite E. clear E.
  destruct (cancelled w 8) eqn:C8; [left; apply (stalled_store w g m _ (Hg 8 ltac:(lia))); now right|].
  change (skipn 8 (j_steps MachineLearning)) with (cov_step :: skipn 9 (j_steps MachineLearning)).
  cbn [run_steps].
  destruct (cov_step_good log8 C8) as [[Hok Hst]|[log9 E]].
  { left. rewrite (stalled_store w g m _ (Hg 9 ltac:(lia))); [assumption | now left]. }
  rewrite E. clear E.
  change (skipn 9 (j_steps MachineLearning))
    with (up_step :: skipn 10 (j_steps MachineLearning)).
  cbn [run_steps].
  change (skipn 10 (j_steps MachineLearning))
    with [nth 10 (j_steps MachineLearning) (download "" "")].
  cbn [run_steps].
  rewrite store_after_step by (left; reflexivity).
  apply up_step_store. reflexivity.
Qed.
End Artifacts.

(** *** The Checks job *)

(** C3. In the Checks job the seven check steps that follow "Install
    Dependencies" (pip check, Copyright Check, make spell, Style Check,
    Run make html, Run upload documentation, make doctest) all carry
    [if: ${{ !cancelled() }}]; hence in every run that is not cancelled
    each of them is executed, whatever earlier steps did, in particular
    when an earlier check step has failed. *)
Theorem checks_run_despite_failures :
  option_map step_label (nth_error (j_steps Checks) 5) = Some "Install Dependencies" /\
  map step_label (skipn 6 (j_steps Checks))
  = ["pip check"; "Copyright Check"; "make spell"; "Style Check"; "Run make html";
     "Run upload documentation"; "make doctest"] /\
  Forall (fun s => s_if s = Some (ENot ECancelled)) (skipn 6 (j_steps Checks)) /\
  forall w g m store,
    cancel_at w = None ->
    forall k, 6 <= k < 13 -> executed (run_job w g store Checks m) k = true.
Proof.
  split; [reflexivity|]. split; [reflexivity|]. split.
  { repeat constructor. }
  intros w g m store Hc k Hk. unfold run_job.
  assert (Hs : exists s, nth_error (j_steps Checks) k = Some s /\ s_if s = Some (ENot ECancelled)).
  { do 6 (destruct k as [|k]; [lia|]).
    do 7 (destruct k as [|k]; [eexists; split; reflexivity|]). lia. }
  destruct Hs as (s & Hn & Hif).
  rewrite (executed_at_step w g m _ k s (start store) Hn eq_refl).
  rewrite (not_cancelled_runs w g m k s _ Hif).
  now rewrite (not_cancelled_never w k Hc).
Qed.

(** A run of Checks in which [pip check] fails: the later checks run. *)
Lemma checks_run_despite_failures_witness :
  let w := mkWorld (fun i _ => if i =? 6 then 1 else 0) (fun _ _ => false) (fun _ => true) None in
  let g := mkGithub "qiskit-community/qiskit-machine-learning" "refs/heads/main" "" ""
             "Machine Learning Unit Tests" "push" [] in
  let r := run_job w g [] Checks [("os", VStr "ubuntu-latest"); ("python-version", yaml_plain "3.9")] in
  outcome_at r 6 = Some Failed /\ executed r 7 = true /\ executed r 12 = true.
Proof.
  intros w g r. split; [reflexivity|].
  split; apply (proj2 (proj2 (proj2 checks_run_despite_failures))); solve [reflexivity | lia].
Defined.

(** *** The aggregation job's "Combined Deprecation Messages" step *)

(** C8. The script of "Combined Deprecation Messages" is the sort over
    the nine downloaded [ml.dep] files followed by [|| true]; it exits
    with status 0 whatever the exit status of [sort], so in every run
    the step either succeeds or is skipped, and never fails. *)
Theorem combined_deprecation_never_fails :
  forall w g store m,
  exists body,
    nth_error (j_steps Deprecation_Messages_and_Coverage) 12
    = Some (mkStep (Some [Lit "Combined Deprecation Messages"]) [] (Run "bash" body) None) /\
    body = [OrElse
              (Cmd ("sort" :: "-f" :: "-u"
                    :: map (fun np => (snd np ++ "/ml.dep")%string)
                           (requested g Deprecation_Messages_and_Coverage m)))
              (Cmd ["true"])] /\
    List.length (requested g Deprecation_Messages_and_Coverage m) = 9 /\
    (forall ext wrote fs, fst (run_script ext wrote body fs) = 0) /\
    (outcome_at (run_job w g store Deprecation_Messages_and_Coverage m) 12 = Some Succeeded \/
     outcome_at (run_job w g store Deprecation_Messages_and_Coverage m) 12 = Some Skipped).
Proof.
  intros w g store m. eexists. split; [reflexivity|]. split; [reflexivity|].
  split; [reflexivity|].
  assert (Hexit : forall ext wrote fs,
            fst (run_script ext wrote
                   [OrElse
                      (Cmd ["sort"; "-f"; "-u";
                            "/tmp/u39/ml.dep"; "/tmp/u310/ml.dep"; "/tmp/u311/ml.dep";
                            "/tmp/u312/ml.dep"; "/tmp/u313/ml.dep"; "/tmp/m39/ml.dep";
                            "/tmp/m313/ml.dep"; "/tmp/w39/ml.dep"; "/tmp/w313/ml.dep"])
                      (Cmd ["true"])] fs) = 0).
  { intros ext wrote fs. cbn -[Nat.eqb]. destruct (ext _ =? 0); reflexivity. }
  split; [exact Hexit|].
  unfold run_job.
  rewrite (outcome_at_step w g m (j_steps Deprecation_Messages_and_Coverage) 12 _ eq_refl (start store) eq_refl).
  unfold step_outcome.
  destruct (step_runs _ _ _ _ _ _); [|now right].
  left. cbv [s_action]. rewrite Hexit. reflexivity.
Qed.

(** *** The Tutorials job: building and uploading the stable tutorials *)

(** C10, as stated, fails when the run is cancelled between the two
    steps: in a run on [main] for Python 3.9 that is cancelled when "Run
    upload stable tutorials" is about to start, "Run stable tutorials"
    has succeeded and the upload step is skipped. *)
Lemma stable_upload_skipped_on_cancel :
  succeeded (run_job (cancelled_before 8) push_main [] Tutorials ubuntu_39) 7 = true /\
  executed (run_job (cancelled_before 8) push_main [] Tutorials ubuntu_39) 8 = false.
Proof. split; vm_compute; reflexivity. Qed.

(** C10, amended. "Run upload stable tutorials" carries the same
    condition as "Run stable tutorials" (python-version is 3.9, the ref
    does not start with [refs/heads/stable] and the base ref does not
    start with [stable/]); hence in every run that is not cancelled
    before the upload step starts, the upload step runs if and only if
    "Run stable tutorials" ran and succeeded. *)
Theorem stable_upload_follows_build :
  option_map step_label (nth_error (j_steps Tutorials) 7) = Some "Run stable tutorials" /\
  option_map step_label (nth_error (j_steps Tutorials) 8) = Some "Run upload stable tutorials" /\
  option_map s_if (nth_error (j_steps Tutorials) 8)
  = option_map s_if (nth_error (j_steps Tutorials) 7) /\
  option_map s_if (nth_error (j_steps Tutorials) 7)
  = Some (Some (EAnd (EAnd (EEq (EMatrix "python-version") (ELit (VNum (mkDec 39 1))))
                           (ENot (EStartsWith (EGithub "ref") (ELit (VStr "refs/heads/stable")))))
                     (ENot (EStartsWith (EGithub "base_ref") (ELit (VStr "stable/")))))) /\
  forall w g store m,
    cancelled w 8 = false ->
    executed (run_job w g store Tutorials m) 8 = succeeded (run_job w g store Tutorials m) 7.
Proof.
  do 4 (split; [reflexivity|]).
  intros w g store m Hc8. unfold run_job.
  destruct (nth_error (j_steps Tutorials) 7) as [s7|] eqn:H7; [|discriminate].
  destruct (nth_error (j_steps Tutorials) 8) as [s8|] eqn:H8; [|discriminate].
  rewrite (executed_at_step w g m _ 8 s8 (start store) H8 eq_refl).
  rewrite (succeeded_at_step w g m _ 7 s7 (start store) H7 eq_refl).
  replace (firstn 8 (j_steps Tutorials)) with (firstn 7 (j_steps Tutorials) ++ [s7])
    by (injection H7 as <-; reflexivity).
  rewrite run_steps_app.
  set (st7 := run_steps w g m 0 (firstn 7 (j_steps Tutorials)) (start store)).
  replace (0 + List.length (firstn 7 (j_steps Tutorials))) with 7 by reflexivity.
  change (run_steps w g m 7 [s7] st7) with (run_step w g m 7 s7 st7).
  assert (E8 : exists e, s_if s8 = Some e /\ s_if s7 = Some e /\ has_status_fn e = false).
  { injection H7 as <-. injection H8 as <-. eexists. repeat split. }
  destruct E8 as (e & He8 & He7 & Hst).
  rewrite (guarded_step_runs w g m 8 s8 _ e He8 Hst), ok_after_step, Hc8.
  unfold step_outcome. rewrite (guarded_step_runs w g m 7 s7 st7 e He7 Hst).
  destruct (js_ok st7) eqn:Hok, (cancelled w 7) eqn:Hc7,
           (truthy (eval (mkEnv g m (mkStatus true false)) e)) eqn:Hcond;
    simpl; try reflexivity.
  - apply (cancelled_mono w 7 8) in Hc7; [congruence | lia].
  - destruct (s_action s7).
    + destruct (fst _ =? 0); reflexivity.
    + destruct (fst (fst _)); reflexivity.
Qed.

(** A run on [main] for Python 3.9 in which nothing fails and nobody
    cancels: the archive is built, the upload step runs and the artifact
    [tutorials-stable3.9] is stored. *)
Lemma stable_upload_follows_build_witness :
  executed (run_job calm push_main [] Tutorials ubuntu_39) 8 = true /\
  assoc "tutorials-stable3.9" (js_store (run_job calm push_main [] Tutorials ubuntu_39))
  = Some ["tutorials.tar.gz"].
Proof.
  split; [|reflexivity].
  rewrite (proj2 (proj2 (proj2 (proj2 stable_upload_follows_build))) calm push_main [] ubuntu_39);
    reflexivity.
Defined.

(** *** Coverage data *)

(** The aggregation job's "Coverage combine" consumes the file it reads
    and leaves [.coverage] behind. *)
Example coverage_combine_consumes :
  forall g m,
    let r := run_job calm g (map ml_artifact (expand (j_matrix MachineLearning)))
               Deprecation_Messages_and_Coverage m in
    filter (has_suffix "ml.dat") (files (js_fs r)) = [] /\
    existsb (String.eqb ".coverage") (files (js_fs r)) = true.
Proof. intros g m. split; vm_compute; reflexivity. Qed.

(** C9. MachineLearning's "Coverage combine" runs only for os
    [ubuntu-latest] and python-version 3.9, which holds for exactly one
    of the nine combinations; whatever happens in a run, an instance
    uploads either nothing or one artifact named [<os>-<python-version>]
    that holds [ml.dep], and [ml.dat] besides only for
    [ubuntu-latest-3.9]; the aggregation job's "Coverage combine" reads
    the single file [/tmp/u39/ml.dat], [/tmp/u39] being where it unpacks
    [ubuntu-latest-3.9], and when that step starts no other downloaded
    file is an [ml.dat]. *)
Theorem coverage_from_one_combination :
  option_map step_label (nth_error (j_steps MachineLearning) 8) = Some "Coverage combine" /\
  option_map s_if (nth_error (j_steps MachineLearning) 8)
  = Some (Some (EAnd (EEq (EMatrix "os") (ELit (VStr "ubuntu-latest")))
                     (EEq (EMatrix "python-version") (ELit (VNum (mkDec 39 1)))))) /\
  (forall w g m st,
     step_runs w g m 8 cov_step st
     = js_ok st && negb (cancelled w 8) && coverage_guard m) /\
  map (fun m => (os_version m, coverage_guard m)) (expand (j_matrix MachineLearning))
  = [("ubuntu-latest-3.9", true); ("ubuntu-latest-3.10", false);
     ("ubuntu-latest-3.11", false); ("ubuntu-latest-3.12", false);
     ("ubuntu-latest-3.13", false); ("macos-latest-3.9", false);
     ("macos-latest-3.13", false); ("windows-latest-3.9", false);
     ("windows-latest-3.13", false)] /\
  (forall w g m,
     uploads w g MachineLearning m = [] \/ uploads w g MachineLearning m = [ml_artifact m]) /\
  map ml_artifact (expand (j_matrix MachineLearning))
  = [("ubuntu-latest-3.9", ["ml.dep"; "ml.dat"]); ("ubuntu-latest-3.10", ["ml.dep"]);
     ("ubuntu-latest-3.11", ["ml.dep"]); ("ubuntu-latest-3.12", ["ml.dep"]);
     ("ubuntu-latest-3.13", ["ml.dep"]); ("macos-latest-3.9", ["ml.dep"]);
     ("macos-latest-3.13", ["ml.dep"]); ("windows-latest-3.9", ["ml.dep"]);
     ("windows-latest-3.13", ["ml.dep"])] /\
  map (uploads calm push_main MachineLearning) (expand (j_matrix MachineLearning))
  = map (fun m => [ml_artifact m]) (expand (j_matrix MachineLearning)) /\
  option_map step_label (nth_error (j_steps Deprecation_Messages_and_Coverage) 13)
  = Some "Coverage combine" /\
  option_map s_action (nth_error (j_steps Deprecation_Messages_and_Coverage) 13)
  = Some (Run "bash" [Cmd ["coverage3"; "combine"; "/tmp/u39/ml.dat"]]) /\
  (forall g m,
     assoc "ubuntu-latest-3.9" (requested g Deprecation_Messages_and_Coverage m)
     = Some "/tmp/u39") /\
  (forall g m,
     filter (has_suffix "ml.dat")
       (files (js_fs (run_steps calm g m 0
                        (firstn 13 (j_steps Deprecation_Messages_and_Coverage))
                        (start (map ml_artifact (expand (j_matrix MachineLearning)))))))
     = ["/tmp/u39/ml.dat"]).
Proof.
  split; [reflexivity|]. split; [reflexivity|]. split.
  { intros w g m st.
    rewrite (guarded_step_runs w g m 8 cov_step st _ eq_refl eq_refl).
    now rewrite coverage_guard_eval. }
  split; [vm_compute; reflexivity|].
  split; [intros w g m; apply ml_uploads_shape|].
  split; [vm_compute; reflexivity|].
  split; [vm_compute; reflexivity|].
  split; [reflexivity|]. split; [reflexivity|].
  split; [intros g m; reflexivity|].
  intros g m. vm_compute. reflexivity.
Qed.

(** *** Artifact names *)

(** C2. The nine download steps of the aggregation job ask for nine
    names; every MachineLearning combination stores the contents of
    [./ci-artifact-data] under [<os>-<python-version>]; each requested
    name is the upload name of exactly one combination, and each
    combination's upload name is requested exactly once. *)
Theorem downloads_match_uploads :
  forall g magg,
    download_names g magg
    = ["ubuntu-latest-3.9"; "ubuntu-latest-3.10"; "ubuntu-latest-3.11";
       "ubuntu-latest-3.12"; "ubuntu-latest-3.13"; "macos-latest-3.9";
       "macos-latest-3.13"; "windows-latest-3.9"; "windows-latest-3.13"] /\
    List.length (filter (uses_action "actions/download-artifact@v4")
                   (j_steps Deprecation_Messages_and_Coverage)) = 9 /\
    (forall m, offered g MachineLearning m = [(os_version m, "./ci-artifact-data/*")]) /\
    upload_names g = map os_version (expand (j_matrix MachineLearning)) /\
    List.length (expand (j_matrix MachineLearning)) = 9 /\
    Forall (fun d => count d (upload_names g) = 1) (download_names g magg) /\
    Forall (fun u => count u (download_names g magg) = 1) (upload_names g).
Proof.
  intros g magg.
  assert (Hoff : forall m, offered g MachineLearning m = [(os_version m, "./ci-artifact-data/*")]).
  { intros m. unfold offered, os_version. cbn. now rewrite string_app_nil. }
  assert (Hup : upload_names g = map os_version (expand (j_matrix MachineLearning))).
  { unfold upload_names. induction (expand (j_matrix MachineLearning)) as [|m l IH];
      [reflexivity|]. cbn [flat_map]. rewrite Hoff, IH. reflexivity. }
  split; [reflexivity|]. split; [reflexivity|]. split; [exact Hoff|].
  split; [exact Hup|]. split; [reflexivity|].
  rewrite Hup.
  change (download_names g magg)
    with ["ubuntu-latest-3.9"; "ubuntu-latest-3.10"; "ubuntu-latest-3.11";
          "ubuntu-latest-3.12"; "ubuntu-latest-3.13"; "macos-latest-3.9";
          "macos-latest-3.13"; "windows-latest-3.9"; "windows-latest-3.13"].
  split; vm_compute; repeat constructor.
Qed.

(** *** Build matrices *)

(** C6. The matrix of MachineLearning is the product [ubuntu-latest] x
    [3.9, 3.10, 3.11, 3.12, 3.13] followed by exactly four included
    points, macos-latest and windows-latest at 3.9 and 3.13; the matrix
    of Tutorials is the product [ubuntu-latest] x [3.9, 3.13] with no
    inclusion; the os axis of both holds ubuntu-latest only. *)
Theorem test_matrices :
  expand (j_matrix MachineLearning)
  = product (axes (j_matrix MachineLearning)) ++ include (j_matrix MachineLearning) /\
  map (fun a => (fst a, map to_string (snd a))) (axes (j_matrix MachineLearning))
  = [("os", ["ubuntu-latest"]); ("python-version", ["3.9"; "3.10"; "3.11"; "3.12"; "3.13"])] /\
  map show (product (axes (j_matrix MachineLearning)))
  = [ [("os", "ubuntu-latest"); ("python-version", "3.9")];
      [("os", "ubuntu-latest"); ("python-version", "3.10")];
      [("os", "ubuntu-latest"); ("python-version", "3.11")];
      [("os", "ubuntu-latest"); ("python-version", "3.12")];
      [("os", "ubuntu-latest"); ("python-version", "3.13")] ] /\
  map show (include (j_matrix MachineLearning))
  = [ [("os", "macos-latest"); ("python-version", "3.9")];
      [("os", "macos-latest"); ("python-version", "3.13")];
      [("os", "windows-latest"); ("python-version", "3.9")];
      [("os", "windows-latest"); ("python-version", "3.13")] ] /\
  List.length (include (j_matrix MachineLearning)) = 4 /\
  expand (j_matrix Tutorials) = product (axes (j_matrix Tutorials)) /\
  include (j_matrix Tutorials) = [] /\
  map show (expand (j_matrix Tutorials))
  = [ [("os", "ubuntu-latest"); ("python-version", "3.9")];
      [("os", "ubuntu-latest"); ("python-version", "3.13")] ] /\
  Forall (fun j => assoc "os" (axes (j_matrix j)) = Some [VStr "ubuntu-latest"])
         [MachineLearning; Tutorials].
Proof.
  repeat split; try (vm_compute; reflexivity).
  repeat constructor.
Qed.

(** *** Triggers *)

Lemma gmatch_lits p : forall s, gmatch (lits p) s = (p =? s)%string.
Proof.
  induction p as [|c p IH]; intros [|x s]; simpl; try reflexivity.
  now rewrite IH.
Qed.

Lemma gmatch_any s : gmatch [GStarStar] s = true.
Proof. induction s as [|x s IH]; simpl in *; [reflexivity | exact IH]. Qed.

Lemma gmatch_lits_any p : forall s, gmatch (lits p ++ [GStarStar]) s = String.prefix p s.
Proof.
  induction p as [|c p IH]; intros s.
  - rewrite gmatch_any. now destruct s.
  - destruct s as [|x s]; [reflexivity|].
    simpl. rewrite IH.
    destruct (ascii_dec c x) as [->|Hne].
    + now rewrite Ascii.eqb_refl.
    + apply Ascii.eqb_neq in Hne. now rewrite Hne.
Qed.

Lemma main_pattern b : glob_match "main" b = ("main" =? b)%string.
Proof. exact (gmatch_lits "main" b). Qed.

Lemma stable_pattern b : glob_match "stable/**" b = String.prefix "stable/" b.
Proof. exact (gmatch_lits_any "stable/" b). Qed.

(** C4. The workflow listens to exactly three kinds of event: a push to
    the branch [main] or to a branch matching [stable/**] (one whose
    name starts with [stable/]), a pull request whose base is such a
    branch, and the schedule [0 1 * * *], which fires at minute 0 of
    hour 1, once on every day; nothing else starts it. *)
Theorem workflow_triggers :
  map fst (w_on main) = ["push"; "pull_request"; "schedule"] /\
  (forall b, glob_match "stable/**" b = String.prefix "stable/" b) /\
  (forall e,
     fires (w_on main) e = true <->
     (exists b, e = Push (Branch b) /\ (b = "main" \/ glob_match "stable/**" b = true)) \/
     (exists b, e = PullRequest b /\ (b = "main" \/ glob_match "stable/**" b = true)) \/
     (exists t, e = Schedule t /\ minute t = 0 /\ hour t = 1)) /\
  (forall d mo dw,
     filter (fun hm => fires (w_on main) (Schedule (mkTime (snd hm) (fst hm) d mo dw)))
            day_minutes
     = [(1, 0)]).
Proof.
  split; [reflexivity|]. split; [exact stable_pattern|]. split.
  - assert (Hb : forall b,
              existsb (fun p => glob_match p b) ["main"; "stable/**"] = true <->
              b = "main" \/ glob_match "stable/**" b = true).
    { intros b. simpl. rewrite orb_false_r, orb_true_iff, main_pattern, String.eqb_eq.
      split; (intros [H|H]; [left; now symmetry | now right]). }
    assert (Hs : forall t,
              fires (w_on main) (Schedule t) = (0 =? minute t) && (1 =? hour t)).
    { intros t.
      transitivity (((0 =? minute t) && (1 =? hour t) && true && true && true) || false);
        [vm_compute; reflexivity|].
      now rewrite orb_false_r, !andb_true_r. }
    intros e. split.
    + destruct e as [[b|t]|b|t|k].
      * intros H. left. exists b. split; [reflexivity|]. now apply Hb.
      * discriminate.
      * intros H. right; left. exists b. split; [reflexivity|]. now apply Hb.
      * intros H. right; right. exists t. split; [reflexivity|].
        rewrite Hs in H. apply andb_true_iff in H. destruct H as [H1 H2].
        apply Nat.eqb_eq in H1, H2. now split.
      * intros H. exfalso. revert H. unfold fires.
        change (assoc (event_kind (Other k)) (w_on main))
          with (if ("push" =? k)%string then Some (OnBranches ["main"; "stable/**"])
                else if ("pull_request" =? k)%string then Some (OnBranches ["main"; "stable/**"])
                else if ("schedule" =? k)%string then Some (OnCron ["0 1 * * *"])
                else None).
        destruct ("push" =? k)%string; [intros H; discriminate H|].
        destruct ("pull_request" =? k)%string; [intros H; discriminate H|].
        destruct ("schedule" =? k)%string; intros H; discriminate H.
    + intros [(b & -> & H)|[(b & -> & H)|(t & -> & Hm & Hh)]].
      * now apply Hb.
      * now apply Hb.
      * rewrite Hs, Hm, Hh. reflexivity.
  - intros d mo dw. vm_compute. reflexivity.
Qed.

(** A push to [stable/0.7] starts the workflow. *)
Lemma workflow_triggers_witness :
  fires (w_on main) (Push (Branch "stable/0.7")) = true.
Proof.
  apply (proj1 (proj2 (proj2 workflow_triggers))).
  left. exists "stable/0.7". split; [reflexivity|]. right. reflexivity.
Defined.

(** *** Concurrency *)

(** C5. The concurrency group of the workflow is
    [<repository>-<ref>-<head ref>-<workflow>] with cancel-in-progress
    set; runs that agree on these four values share a group, and when a
    run starts, every run of its group that was in progress is cancelled
    while the new run is in progress. *)
Theorem concurrency_cancels_in_progress :
  cancel_in_progress (w_concurrency main) = true /\
  (forall g,
     group_of (w_concurrency main) g
     = (repository g ++ "-" ++ ref g ++ "-" ++ head_ref g ++ "-" ++ workflow g)%string) /\
  (forall g1 g2,
     repository g1 = repository g2 -> ref g1 = ref g2 ->
     head_ref g1 = head_ref g2 -> workflow g1 = workflow g2 ->
     group_of (w_concurrency main) g1 = group_of (w_concurrency main) g2) /\
  (forall id g runs n r,
     nth_error runs n = Some r ->
     run_group r = group_of (w_concurrency main) g ->
     run_state r = InProgress ->
     nth_error (start_run (w_concurrency main) id g runs) n
     = Some (mkRun (run_id r) (run_group r) Cancelled)) /\
  (forall id g runs,
     nth_error (start_run (w_concurrency main) id g runs) (List.length runs)
     = Some (mkRun id (group_of (w_concurrency main) g) InProgress)).
Proof.
  assert (Hg : forall g,
            group_of (w_concurrency main) g
            = (repository g ++ "-" ++ ref g ++ "-" ++ head_ref g ++ "-" ++ workflow g)%string).
  { intros g. unfold group_of. cbn. now rewrite string_app_nil. }
  split; [reflexivity|]. split; [exact Hg|]. split.
  { intros g1 g2 H1 H2 H3 H4. rewrite !Hg. congruence. }
  split.
  - intros id g runs n r Hn Hgrp Hst. unfold start_run.
    change (cancel_in_progress (w_concurrency main)) with true. cbv iota.
    rewrite nth_error_app1
      by (rewrite length_map; apply nth_error_Some; congruence).
    rewrite nth_error_map, Hn. simpl.
    unfold in_group, is_state, cancel. rewrite Hst, Hgrp, String.eqb_refl. reflexivity.
  - intros id g runs. unfold start_run.
    change (cancel_in_progress (w_concurrency main)) with true. cbv iota.
    rewrite nth_error_app2 by (rewrite length_map; lia).
    now rewrite length_map, Nat.sub_diag.
Qed.

(** A second push to [main] while the run of the first is in progress. *)
Lemma concurrency_cancels_in_progress_witness :
  nth_error
    (start_run (w_concurrency main) 2 push_main
       [mkRun 1 (group_of (w_concurrency main) push_main) InProgress]) 0
  = Some (mkRun 1 (group_of (w_concurrency main) push_main) Cancelled).
Proof.
  apply (proj1 (proj2 (proj2 (proj2 concurrency_cancels_in_progress))) 2 push_main
           [mkRun 1 (group_of (w_concurrency main) push_main) InProgress] 0
           (mkRun 1 (group_of (w_concurrency main) push_main) InProgress));
    reflexivity.
Defined.

(** *** Job order *)

Section Scheduling.

Variable jobs : list job.

Lemma upd_hit st j k v : upd st j k v j k = v.
Proof. unfold upd. now rewrite String.eqb_refl, Nat.eqb_refl. Qed.

Lemma upd_miss st j k v j' k' : (j', k') <> (j, k) -> upd st j k v j' k' = st j' k'.
Proof.
  unfold upd. intros H.
  destruct (String.eqb_spec j' j) as [->|]; [|reflexivity].
  destruct (Nat.eqb_spec k' k) as [->|]; [|reflexivity].
  now contradiction H.
Qed.

(** Every step acts on one instance that has not concluded, and only a
    successful finish concludes it with success. *)
Lemma sstep_shape st e st' :
  sstep jobs st e st' ->
  (st (fst (target e)) (snd (target e)) = Waiting \/
   st (fst (target e)) (snd (target e)) = Running) /\
  exists v, st' = upd st (fst (target e)) (snd (target e)) v /\
            (v = Done CSuccess -> e = Finish (fst (target e)) (snd (target e)) CSuccess).
Proof.
  intros H. destruct H as [st j k _ _ Hw _ | st j k r _ _ Hr Hres
                          | st j k p _ _ Hw _ _ _ _ | st j k _ _ Hwr]; simpl.
  - split; [now left|]. eexists. split; [reflexivity|discriminate].
  - split; [now right|]. eexists. split; [reflexivity|]. now intros [= ->].
  - split; [now left|]. eexists. split; [reflexivity|discriminate].
  - split; [assumption|]. eexists. split; [reflexivity|discriminate].
Qed.

(** A concluded instance stays as it is. *)
Lemma done_stable st e st' j k r :
  sstep jobs st e st' -> st j k = Done r ->
  st' j k = Done r /\ target e <> (j, k).
Proof.
  intros Hs Hd. destruct (sstep_shape st e st' Hs) as (Hact & v & -> & _).
  assert (Hne : target e <> (j, k)).
  { intros E. rewrite E in Hact. simpl in Hact. destruct Hact; congruence. }
  split; [|assumption].
  rewrite upd_miss; [assumption|].
  intros E. apply Hne. rewrite E. now destruct (target e).
Qed.

Lemma done_stable_trace st0 tr st :
  trace jobs st0 tr st ->
  forall j k r, st0 j k = Done r ->
  st j k = Done r /\ Forall (fun e => target e <> (j, k)) tr.
Proof.
  induction 1 as [st|st0 tr st e st' Htr IH Hs]; intros j k r Hd.
  - split; [assumption|constructor].
  - destruct (IH j k r Hd) as [Hd' Hall].
    destruct (done_stable st e st' j k r Hs Hd') as [Hd'' Hne].
    split; [assumption|].
    apply Forall_app. split; [assumption|]. now constructor.
Qed.

(** An instance that has concluded with success has a finish event. *)
Lemma success_recorded tr st :
  trace jobs init tr st ->
  forall j k, st j k = Done CSuccess -> In (Finish j k CSuccess) tr.
Proof.
  remember init as st0 eqn:E0.
  induction 1 as [st|st0 tr st e st' Htr IH Hs]; intros j k Hd.
  - subst st. discriminate.
  - specialize (IH E0). apply in_or_app.
    destruct (sstep_shape st e st' Hs) as (_ & v & -> & Hv).
    unfold upd in Hd.
    destruct (String.eqb_spec j (fst (target e))) as [Ej|Ej];
      [destruct (Nat.eqb_spec k (snd (target e))) as [Ek|Ek]|]; simpl in Hd.
    + right. left. subst j k. now apply Hv.
    + left. now apply IH.
    + left. now apply IH.
Qed.

Lemma trace_snoc_inv st0 tr e st' :
  trace jobs st0 (tr ++ [e]) st' ->
  exists st, trace jobs st0 tr st /\ sstep jobs st e st'.
Proof.
  intros H. inversion H as [st E1 E2|st1 tr1 st e1 st2 Htr Hs E1 E2 E3].
  - symmetry in E2. now apply app_eq_nil in E2 as [_ ?].
  - apply app_inj_tail in E2 as [-> ->]. eauto.
Qed.

Lemma trace_app_inv st0 a : forall b st,
  trace jobs st0 (a ++ b) st ->
  exists mid, trace jobs st0 a mid /\ trace jobs mid b st.
Proof.
  intros b. induction b as [|e b IH] using rev_ind; intros st H.
  - rewrite app_nil_r in H. exists st. split; [assumption|constructor].
  - rewrite app_assoc in H. apply trace_snoc_inv in H as (st1 & Htr & Hs).
    destruct (IH st1 Htr) as (mid & Ha & Hb).
    exists mid. split; [assumption|]. econstructor; eassumption.
Qed.

Lemma trace_cons st0 e st1 tr st :
  sstep jobs st0 e st1 -> trace jobs st1 tr st -> trace jobs st0 (e :: tr) st.
Proof.
  intros Hs Htr. induction Htr as [st|st1 tr st e' st' Htr IH Hs'].
  - apply (trace_snoc jobs st0 [] st0 e st); [constructor|assumption].
  - change (e :: tr ++ [e']) with ((e :: tr) ++ [e']).
    econstructor; [apply IH; assumption | eassumption].
Qed.

Lemma trace_nil_inv st0 st : trace jobs st0 [] st -> st = st0.
Proof.
  intros H. remember [] as l eqn:El.
  destruct H as [|st0 tr st e st' _ _]; [reflexivity|]. now destruct tr.
Qed.

Lemma trace_cons_inv st0 e tr st :
  trace jobs st0 (e :: tr) st ->
  exists st1, sstep jobs st0 e st1 /\ trace jobs st1 tr st.
Proof.
  intros H. change (e :: tr) with ([e] ++ tr) in H.
  apply trace_app_inv in H as (mid & Ha & Hb).
  apply (trace_snoc_inv st0 [] e mid) in Ha as (st' & Hnil & Hs).
  apply trace_nil_inv in Hnil. subst st'. eauto.
Qed.

Lemma find_job_spec id j :
  find_job jobs id = Some j -> In j jobs /\ j_id j = id.
Proof.
  unfold find_job. intros H. apply find_some in H as [Hin He].
  split; [assumption|]. now apply String.eqb_eq.
Qed.

Lemma needed_spec j p :
  In p jobs -> In (j_id p) (j_needs j) -> In p (needed jobs j).
Proof.
  intros Hp Hn. unfold needed. apply filter_In. split; [assumption|].
  apply existsb_exists. exists (j_id p). split; [assumption|apply String.eqb_refl].
Qed.

Lemma needed_inv j p :
  In p (needed jobs j) -> In p jobs /\ In (j_id p) (j_needs j).
Proof.
  unfold needed. intros H. apply filter_In in H as [Hp H]. split; [assumption|].
  apply existsb_exists in H as (x & Hx & E). apply String.eqb_eq in E. now subst x.
Qed.

Lemma all_instances_spec f j :
  all_instances f j = true <-> forall k, k < instances j -> f k = true.
Proof.
  unfold all_instances. rewrite forallb_forall. split.
  - intros H k Hk. apply H, in_seq. lia.
  - intros H k Hk. apply in_seq in Hk. apply H. lia.
Qed.

Lemma is_success_spec s : is_success s = true <-> s = Done CSuccess.
Proof. destruct s as [| |[]]; simpl; split; congruence. Qed.

Lemma is_done_spec s : is_done s = true <-> exists r, s = Done r.
Proof.
  destruct s; simpl; split; try discriminate; eauto.
  - intros [r H]. discriminate.
  - intros [r H]. discriminate.
Qed.

Lemma check_step_sound st e st' :
  check_step jobs st e = Some st' -> sstep jobs st e st'.
Proof.
  unfold check_step.
  destruct (find_job jobs (fst (target e))) as [j|] eqn:Hf; [|discriminate].
  apply find_job_spec in Hf as [Hin Hid].
  destruct (snd (target e) <? instances j) eqn:Hk; [|discriminate]. simpl.
  apply Nat.ltb_lt in Hk.
  destruct e as [js k|js k r|js k|js k]; simpl in *; subst js.
  - destruct (st (j_id j) k) eqn:Hst; try discriminate.
    destruct (forallb _ (needed jobs j)) eqn:Hn; [|discriminate].
    intros [= <-]. apply step_start; try assumption.
    intros p Hp Hneed k' Hk'.
    rewrite forallb_forall in Hn. specialize (Hn p (needed_spec j p Hp Hneed)).
    rewrite all_instances_spec in Hn. now apply is_success_spec, Hn.
  - destruct r; try discriminate;
      (destruct (st (j_id j) k) eqn:Hst; try discriminate;
       intros [= <-]; apply step_finish; auto).
  - destruct (st (j_id j) k) eqn:Hst; try discriminate.
    destruct (forallb _ (needed jobs j) && existsb _ (needed jobs j)) eqn:Hn; [|discriminate].
    apply andb_true_iff in Hn as [Hd Hx].
    apply existsb_exists in Hx as (p & Hp & Hnot).
    apply needed_inv in Hp as [Hp Hneed].
    intros [= <-]. apply (step_skip jobs st j k p); try assumption.
    + intros q Hq Hqn k' Hk'.
      rewrite forallb_forall in Hd. specialize (Hd q (needed_spec j q Hq Hqn)).
      rewrite all_instances_spec in Hd. now apply is_done_spec, Hd.
    + intros Hsucc. apply negb_true_iff in Hnot.
      assert (all_instances (fun i => is_success (st (j_id p) i)) p = true); [|congruence].
      apply all_instances_spec. intros k' Hk'. now apply is_success_spec, Hsucc.
  - destruct (st (j_id j) k) eqn:Hst; try discriminate;
      intros [= <-]; apply step_cancel; auto.
Qed.

Lemma replay_sound tr : forall st st',
  replay jobs st tr = Some st' -> trace jobs st tr st'.
Proof.
  induction tr as [|e tr IH]; intros st st'; simpl.
  - intros [= <-]. constructor.
  - destruct (check_step jobs st e) as [st1|] eqn:Hc; [|discriminate].
    intros H. eapply trace_cons; [apply check_step_sound; eassumption | now apply IH].
Qed.

End Scheduling.

Lemma replays_trace jobs tr : replays jobs tr = true -> exists st, trace jobs init tr st.
Proof.
  unfold replays. destruct (replay jobs init tr) as [st|] eqn:E; [|discriminate].
  intros _. exists st. now apply replay_sound.
Qed.

(** C1. The aggregation job needs Checks, MachineLearning and Tutorials;
    in every run of the scheduler, when an instance of
    Deprecation_Messages_and_Coverage starts, every instance of each of
    the three jobs has already finished (with success), and no event of
    any of these instances happens at or after that start: the job runs
    neither before nor together with any of them. *)
Theorem aggregation_waits_for_prerequisites :
  j_needs Deprecation_Messages_and_Coverage = ["Checks"; "MachineLearning"; "Tutorials"] /\
  forall tr st,
    trace (w_jobs main) init tr st ->
    forall pre k post,
      tr = pre ++ Start "Deprecation_Messages_and_Coverage" k :: post ->
      forall p, In p [Checks; MachineLearning; Tutorials] ->
      forall i, i < instances p ->
        In (Finish (j_id p) i CSuccess) pre /\
        Forall (fun e => target e <> (j_id p, i))
               (Start "Deprecation_Messages_and_Coverage" k :: post).
Proof.
  split; [reflexivity|].
  intros tr st Htr pre k post -> p Hp i Hi.
  apply trace_app_inv in Htr as (s1 & Hpre & Hrest).
  pose proof Hrest as Hrest'.
  apply trace_cons_inv in Hrest' as (s2 & Hstart & Hpost).
  assert (Hsucc : s1 (j_id p) i = Done CSuccess).
  { inversion Hstart as [st0 j k0 Hj Hk Hw Hneeds E1 E2 E3| | |]; subst.
    assert (j = Deprecation_Messages_and_Coverage).
    { simpl in Hj. destruct Hj as [<-|[<-|[<-|[<-|[]]]]]; try discriminate. reflexivity. }
    subst j. apply Hneeds; [|  |assumption].
    - simpl in *. intuition.
    - simpl in Hp. destruct Hp as [<-|[<-|[<-|[]]]]; simpl; auto. }
  split.
  - now apply (success_recorded (w_jobs main) pre s1 Hpre).
  - now apply (done_stable_trace (w_jobs main) s1 _ st Hrest (j_id p) i CSuccess).
Qed.

(** All twelve prerequisite instances run, then the aggregation job starts. *)
Lemma aggregation_waits_witness :
  In (Finish "MachineLearning" 8 CSuccess) full_run.
Proof.
  destruct (replays_trace (w_jobs main)
              (full_run ++ Start "Deprecation_Messages_and_Coverage" 0 :: [])
              eq_refl) as [st Htr].
  apply (proj1 (proj2 aggregation_waits_for_prerequisites _ st Htr full_run 0 [] eq_refl
                  MachineLearning (or_intror (or_introl eq_refl)) 8
                  (proj1 (Nat.ltb_lt 8 (instances MachineLearning)) eq_refl))).
Defined.

(** *** The notebook *)

Example score_needs_fit :
  Notebook.estimator_call 0 "score" [] [Notebook.PArr [5; 2]; Notebook.PArr [5]]
    (Notebook.mkPs [] [None] [])
  = Notebook.Err "score: classifier is not fitted".
Proof. reflexivity. Qed.

Example predict_needs_fit :
  Notebook.estimator_call 0 "predict" [] [Notebook.PArr [324; 2]]
    (Notebook.mkPs [] [None] [])
  = Notebook.Err "predict: classifier is not fitted".
Proof. reflexivity. Qed.

(** C7. Run top to bottom, the notebook raises no error against the
    estimator contract and makes exactly three calls on its classifier,
    in this order: one [fit] on the training features (15 x 2) and
    labels (15), then [score] on the test features (5 x 2) and labels
    (5), then [predict] on the grid features (one row of 2 per grid
    point); [n] is the number of grid points along one axis. *)
Theorem notebook_estimator_calls :
  forall n,
  exists st,
    Notebook.run_cells n Notebook.cells = Notebook.Ok st /\
    Notebook.calls st
    = [ Notebook.mkCall 0 "fit"
          [Notebook.Name "train_features"; Notebook.Name "train_labels"]
          [Notebook.PArr [15; 2]; Notebook.PArr [15]];
        Notebook.mkCall 0 "score"
          [Notebook.Name "test_features"; Notebook.Name "test_labels"]
          [Notebook.PArr [5; 2]; Notebook.PArr [5]];
        Notebook.mkCall 0 "predict"
          [Notebook.Name "meshgrid_features"]
          [Notebook.PArr [n * n; 2]] ] /\
    List.length (filter (fun c => (Notebook.c_method c =? "fit")%string) (Notebook.calls st)) = 1 /\
    Notebook.ests st = [Some 2].
Proof.
  intros n. eexists. split.
  - unfold Notebook.run_cells. cbn -[Nat.mul]. rewrite !Nat.mul_1_r, Nat.eqb_refl.
    cbn -[Nat.mul]. rewrite ?Nat.mul_1_r, ?Nat.eqb_refl. cbn -[Nat.mul]. reflexivity.
  - repeat split.
Qed.

(* ===================================================================== *)
(** ** Further properties of the workflow and the notebook                 *)
(* ===================================================================== *)

(** *** Failures and the steps after them *)

Section Failures.

Variables (w : world) (g : github_ctx) (m : combination).

Lemma healthy_step i s st : healthy st -> healthy (run_step w g m i s st).
Proof.
  unfold healthy. intros H Hok. rewrite ok_after_step in Hok.
  apply andb_true_iff in Hok as [Hok Hno]. rewrite run_step_log.
  apply Forall_app. split; [now apply H|].
  constructor; [|constructor].
  destruct (step_outcome w g m i s st); simpl in Hno; congruence.
Qed.

Lemma healthy_steps l : forall i st, healthy st -> healthy (run_steps w g m i l st).
Proof.
  induction l as [|s l IH]; intros i st H; simpl; [assumption|].
  apply IH. now apply healthy_step.
Qed.

Lemma run_steps_split (l : list step) k st :
  k <= List.length l ->
  run_steps w g m 0 l st
  = run_steps w g m k (skipn k l) (run_steps w g m 0 (firstn k l) st).
Proof.
  intros Hk. rewrite <- (firstn_skipn k l) at 1. rewrite run_steps_app.
  simpl. now rewrite length_firstn, Nat.min_l by assumption.
Qed.

(** The log of the first [k] steps is the beginning of the final log. *)
Lemma log_of_prefix (l : list step) k j st :
  js_log st = [] -> j < k -> k <= List.length l ->
  nth_error (js_log (run_steps w g m 0 (firstn k l) st)) j
  = outcome_at (run_steps w g m 0 l st) j.
Proof.
  intros Hst Hj Hk. unfold outcome_at. rewrite (run_steps_split l k st Hk).
  set (stk := run_steps w g m 0 (firstn k l) st).
  destruct (run_steps_log_prefix w g m (skipn k l) k stk) as [outs E].
  rewrite E. rewrite nth_error_app1; [reflexivity|].
  unfold stk. rewrite run_steps_log_length, Hst, length_firstn. simpl. lia.
Qed.

(** After a failure the job instance is no longer succeeding. *)
Lemma failed_not_ok (l : list step) k j st :
  js_log st = [] -> js_ok st = true -> j < k -> k <= List.length l ->
  outcome_at (run_steps w g m 0 l st) j = Some Failed ->
  js_ok (run_steps w g m 0 (firstn k l) st) = false.
Proof.
  intros Hst Hok Hj Hk Hf.
  rewrite <- (log_of_prefix l k j st Hst Hj Hk) in Hf.
  destruct (js_ok (run_steps w g m 0 (firstn k l) st)) eqn:E; [|reflexivity].
  assert (Hh : healthy (run_steps w g m 0 (firstn k l) st)).
  { apply healthy_steps. intros _. rewrite Hst. constructor. }
  specialize (Hh E). apply nth_error_In in Hf.
  rewrite Forall_forall in Hh. now specialize (Hh Failed Hf).
Qed.

(** A guarded step that comes after a failed step is skipped. *)
Lemma skipped_after_failure (l : list step) j k s st :
  js_log st = [] -> js_ok st = true ->
  j < k -> nth_error l k = Some s -> guarded s = true ->
  outcome_at (run_steps w g m 0 l st) j = Some Failed ->
  outcome_at (run_steps w g m 0 l st) k = Some Skipped.
Proof.
  intros Hst Hok Hj Hs Hg Hf.
  assert (Hk : k < List.length l) by (apply nth_error_Some; congruence).
  rewrite (outcome_at_step w g m l k s Hs st Hst). f_equal.
  unfold step_outcome.
  destruct (step_runs w g m k s _) eqn:Hr; [|reflexivity].
  apply guarded_runs in Hr as [Hok' _]; [|assumption].
  rewrite (failed_not_ok l k j st Hst Hok Hj) in Hok' by (assumption || lia).
  discriminate.
Qed.

(** Steps other than uploads leave the artifacts of the run alone. *)
Lemma store_without_uploads l :
  forallb (fun s => negb (uses_action "actions/upload-artifact@v4" s)) l = true ->
  forall i st, js_store (run_steps w g m i l st) = js_store st.
Proof.
  induction l as [|s l IH]; intros H i st; simpl; [reflexivity|].
  simpl in H. apply andb_true_iff in H as [Hs Hl].
  rewrite IH by assumption. apply store_after_step. left.
  now apply negb_true_iff.
Qed.

End Failures.

Lemma run_job_eq w g store j m :
  run_job w g store j m = run_steps w g m 0 (j_steps j) (start store).
Proof. reflexivity. Qed.

Lemma uploads_eq w g j m :
  uploads w g j m = js_store (run_steps w g m 0 (j_steps j) (start [])).
Proof. reflexivity. Qed.

(** X1. In MachineLearning the steps [make mypy], the unit tests and the
    unit tests without torch/sparse carry [if: ${{ !cancelled() }}]: in
    every run that is not cancelled they are executed, whatever the
    steps before them did. *)
Theorem ml_checks_run_despite_failures :
  forall w g m store,
    cancel_at w = None ->
    forall k, In k [5; 6; 10] -> executed (run_job w g store MachineLearning m) k = true.
Proof.
  intros w g m store Hc k Hk. rewrite run_job_eq.
  assert (Hs : exists s, nth_error (j_steps MachineLearning) k = Some s /\
                         s_if s = Some (ENot ECancelled)).
  { simpl in Hk. destruct Hk as [<-|[<-|[<-|[]]]]; eexists; split; reflexivity. }
  destruct Hs as (s & Hn & Hif).
  rewrite (executed_at_step w g m _ k s (start store) Hn eq_refl).
  rewrite (not_cancelled_runs w g m k s _ Hif).
  now rewrite (not_cancelled_never w k Hc).
Qed.

Lemma ml_checks_run_despite_failures_witness :
  outcome_at (run_job lint_fails push_main [] MachineLearning ubuntu_39) 4 = Some Failed /\
  executed (run_job lint_fails push_main [] MachineLearning ubuntu_39) 6 = true.
Proof.
  split; [reflexivity|].
  apply (ml_checks_run_despite_failures lint_fails push_main ubuntu_39 [] eq_refl 6).
  simpl. auto.
Defined.

(** X2. In MachineLearning a failure of any step before the upload
    (lint, mypy, the unit tests, ...) makes the upload step be skipped,
    so the instance stores no artifact. *)
Theorem ml_failure_blocks_artifact :
  forall w g m j,
    j < 9 ->
    outcome_at (run_job w g [] MachineLearning m) j = Some Failed ->
    outcome_at (run_job w g [] MachineLearning m) 9 = Some Skipped /\
    uploads w g MachineLearning m = [].
Proof.
  intros w g m j Hj Hf. rewrite uploads_eq. rewrite run_job_eq in *. split.
  - apply (skipped_after_failure w g m (j_steps MachineLearning) j 9 up_step (start []));
      solve [reflexivity | assumption].
  - rewrite (run_steps_split w g m (j_steps MachineLearning) 9 (start []))
      by (simpl; lia).
    rewrite stalled_store.
    + apply (store_without_uploads w g m (firstn 9 (j_steps MachineLearning)) eq_refl).
    + simpl. repeat constructor; simpl; intros; first [reflexivity | discriminate].
    + left. apply (failed_not_ok w g m (j_steps MachineLearning) 9 j (start []));
        solve [reflexivity | assumption | simpl; lia].
Qed.

Lemma ml_failure_blocks_artifact_witness :
  uploads lint_fails push_main MachineLearning ubuntu_39 = [].
Proof.
  apply (proj2 (ml_failure_blocks_artifact lint_fails push_main ubuntu_39 4
                  ltac:(lia) eq_refl)).
Defined.

(** X4. Every step of the aggregation job runs only while the job is
    succeeding: once one of its steps has failed, each later step is
    skipped; a failed download thus keeps anything from being sent to
    Coveralls. *)
Theorem aggregation_stops_at_first_failure :
  forallb guarded (j_steps Deprecation_Messages_and_Coverage) = true /\
  forall w g store m j k,
    j < k -> k < 15 ->
    outcome_at (run_job w g store Deprecation_Messages_and_Coverage m) j = Some Failed ->
    outcome_at (run_job w g store Deprecation_Messages_and_Coverage m) k = Some Skipped.
Proof.
  split; [reflexivity|].
  intros w g store m j k Hj Hk Hf. rewrite run_job_eq in *.
  destruct (nth_error (j_steps Deprecation_Messages_and_Coverage) k) as [s|] eqn:Hs.
  2:{ apply nth_error_None in Hs. simpl in Hs. lia. }
  apply (skipped_after_failure w g m _ j k s (start store)); try solve [reflexivity | assumption].
  assert (Hall : forallb guarded (j_steps Deprecation_Messages_and_Coverage) = true)
    by reflexivity.
  rewrite forallb_forall in Hall. apply Hall. eapply nth_error_In; eassumption.
Qed.

(** Without the artifacts the first download fails and the Coveralls
    step is skipped. *)
Lemma aggregation_stops_at_first_failure_witness :
  outcome_at (run_job calm push_main [] Deprecation_Messages_and_Coverage
                [("python-version", yaml_plain "3.9")]) 14 = Some Skipped.
Proof.
  apply (proj2 aggregation_stops_at_first_failure calm push_main []
           [("python-version", yaml_plain "3.9")] 2 14 ltac:(lia) ltac:(lia) eq_refl).
Defined.

(** *** The MachineLearning artifact and the upload step *)

Lemma ml_state_before_upload w g m :
  let st9 := run_steps w g m 0 (firstn 9 (j_steps MachineLearning)) (start []) in
  js_store st9 = [] /\
  (js_ok st9 = true -> cancelled w 9 = false ->
   files (js_fs st9)
   = if coverage_guard m
     then ["ci-artifact-data/ml.dep"; "ci-artifact-data/ml.dat"]
     else ["ci-artifact-data/ml.dep"]).
Proof.
  intros st9. split.
  { apply (store_without_uploads w g m (firstn 9 (j_steps MachineLearning)) eq_refl). }
  intros Hok Hc9. unfold st9 in *. clear st9.
  change (firstn 9 (j_steps MachineLearning))
    with (firstn 7 (j_steps MachineLearning) ++ [dep_step; cov_step]) in *.
  rewrite run_steps_app in *.
  destruct (quiet_steps w g m (firstn 7 (j_steps MachineLearning)) eq_refl 0 (start []))
    as [Hf Hs].
  set (st7 := run_steps w g m 0 (firstn 7 (j_steps MachineLearning)) (start [])) in *.
  change (0 + List.length (firstn 7 (j_steps MachineLearning))) with 7 in *.
  change (run_steps w g m 7 [dep_step; cov_step] st7)
    with (run_step w g m 8 cov_step (run_step w g m 7 dep_step st7)) in *.
  assert (Hok8 := run_step_ok_mono w g m 8 cov_step _ Hok).
  assert (Hok7 := run_step_ok_mono w g m 7 dep_step _ Hok8).
  assert (C8 : cancelled w 8 = false).
  { destruct (cancelled w 8) eqn:E; [|reflexivity].
    apply (cancelled_mono w 8 9) in E; [congruence|lia]. }
  assert (C7 : cancelled w 7 = false).
  { destruct (cancelled w 7) eqn:E; [|reflexivity].
    apply (cancelled_mono w 7 9) in E; [congruence|lia]. }
  destruct st7 as [ok [cwd fl] store log]. simpl in Hf, Hs, Hok7. subst fl store ok.
  destruct (dep_step_good w g m cwd log C7) as [[Hbad _]|[log8 E]]; [congruence|].
  rewrite E in *.
  destruct (cov_step_good w g m log8 C8) as [[Hbad _]|[log9 E9]]; [congruence|].
  rewrite E9. reflexivity.
Qed.

(** X3. A MachineLearning instance stores its artifact exactly when its
    upload step succeeds: the upload never succeeds on an empty
    directory, and a run in which the upload is skipped or fails stores
    nothing. *)
Theorem ml_artifact_iff_upload_succeeds :
  forall w g m,
    uploads w g MachineLearning m
    = if succeeded (run_job w g [] MachineLearning m) 9 then [ml_artifact m] else [].
Proof.
  intros w g m. rewrite uploads_eq, run_job_eq.
  rewrite (succeeded_at_step w g m (j_steps MachineLearning) 9 up_step (start []) eq_refl eq_refl).
  rewrite (run_steps_split w g m (j_steps MachineLearning) 9 (start [])) by (simpl; lia).
  destruct (ml_state_before_upload w g m) as [Hs Hf].
  set (st9 := run_steps w g m 0 (firstn 9 (j_steps MachineLearning)) (start [])) in *.
  change (skipn 9 (j_steps MachineLearning))
    with [up_step; nth 10 (j_steps MachineLearning) (download "" "")].
  cbn [run_steps]. rewrite store_after_step by (left; reflexivity).
  unfold step_outcome, run_step.
  rewrite (unconditional_step_runs w g m 9 up_step st9 eq_refl).
  destruct (js_ok st9) eqn:Hok; [|simpl; assumption].
  destruct (cancelled w 9) eqn:C9; [simpl; assumption|].
  specialize (Hf eq_refl eq_refl). simpl andb. cbv iota.
  change (s_action up_step)
    with (Uses "actions/upload-artifact@v4"
            [("name", [Sub (EMatrix "os"); Lit "-"; Sub (EMatrix "python-version")]);
             ("path", [Lit "./ci-artifact-data/*"])]).
  unfold run_action.
  destruct (action_ok w 9); [|simpl; assumption].
  unfold ml_artifact, os_version, collect. rewrite Hs, Hf.
  destruct (coverage_guard m); cbn; rewrite string_app_nil; reflexivity.
Qed.

(** *** The aggregation job and the artifacts it needs *)

Lemma forallb_firstn {A} (f : A -> bool) (l : list A) : forall k,
  forallb f l = true -> forallb f (firstn k l) = true.
Proof.
  induction l as [|x l IH]; intros [|k] H; simpl in *; try reflexivity.
  apply andb_true_iff in H as [Hx Hl]. rewrite Hx. now apply IH.
Qed.

Section Chain.

Variables (w : world) (g : github_ctx) (m : combination).

Lemma run_steps_ok_mono l : forall i st,
  js_ok (run_steps w g m i l st) = true -> js_ok st = true.
Proof.
  induction l as [|s l IH]; intros i st H; simpl in H; [assumption|].
  apply IH in H. now apply run_step_ok_mono in H.
Qed.

Lemma prefix_ok_mono (l : list step) j k st :
  j <= k ->
  js_ok (run_steps w g m 0 (firstn k l) st) = true ->
  js_ok (run_steps w g m 0 (firstn j l) st) = true.
Proof.
  intros Hjk H.
  destruct (Nat.le_gt_cases j (List.length (firstn k l))) as [Hle|Hgt].
  - rewrite (run_steps_split w g m (firstn k l) j st Hle) in H.
    apply run_steps_ok_mono in H.
    now rewrite firstn_firstn, Nat.min_l in H by assumption.
  - rewrite length_firstn in Hgt.
    assert (Hl : List.length l <= k) by lia.
    rewrite (firstn_all2 l Hl) in H.
    assert (Hl' : List.length l <= j) by lia.
    now rewrite (firstn_all2 l Hl').
Qed.

(** A step without [if] that is followed by a guarded step which runs
    has itself run and succeeded. *)
Lemma runs_only_after_success (l : list step) j k sj sk st :
  js_log st = [] -> js_ok st = true -> j < k ->
  nth_error l j = Some sj -> nth_error l k = Some sk ->
  s_if sj = None -> guarded sk = true ->
  executed (run_steps w g m 0 l st) k = true ->
  js_ok (run_steps w g m 0 (firstn j l) st) = true /\
  cancelled w j = false /\
  step_outcome w g m j sj (run_steps w g m 0 (firstn j l) st) = Succeeded.
Proof.
  intros Hst Hok Hjk Hj Hk Hif Hg Hex.
  rewrite (executed_at_step w g m l k sk st Hk Hst) in Hex.
  apply guarded_runs in Hex as [Hokk Hck]; [|assumption].
  assert (Hokj : js_ok (run_steps w g m 0 (firstn j l) st) = true)
    by (apply (prefix_ok_mono l j k st); [lia|assumption]).
  assert (Hcj : cancelled w j = false).
  { destruct (cancelled w j) eqn:E; [|reflexivity].
    apply (cancelled_mono w j k) in E; [congruence|lia]. }
  split; [assumption|]. split; [assumption|].
  assert (Hkl : k < List.length l) by (apply nth_error_Some; congruence).
  destruct (step_outcome w g m j sj _) eqn:Ho; [reflexivity| |].
  - exfalso.
    assert (Hf : outcome_at (run_steps w g m 0 l st) j = Some Failed)
      by (rewrite (outcome_at_step w g m l j sj Hj st Hst); now f_equal).
    rewrite (failed_not_ok w g m l k j st Hst Hok Hjk) in Hokk by (assumption || lia).
    discriminate.
  - exfalso. unfold step_outcome in Ho.
    rewrite (unconditional_step_runs w g m j sj _ Hif), Hokj, Hcj in Ho. simpl in Ho.
    destruct (s_action sj); [destruct (fst _ =? 0)|destruct (fst (fst _))]; discriminate.
Qed.

End Chain.

(** A download that succeeds has found its artifact. *)
Lemma download_outcome w g m k d p st :
  step_outcome w g m k (download d p) st = Succeeded ->
  has_artifact d (js_store st) = true.
Proof.
  unfold step_outcome, has_artifact.
  destruct (step_runs w g m k (download d p) st); [|discriminate].
  unfold download, run_action. cbn [s_action].
  destruct (negb (action_ok w k)); [discriminate|].
  change (("actions/download-artifact@v4" =? "actions/upload-artifact@v4")%string) with false.
  change (("actions/download-artifact@v4" =? "actions/download-artifact@v4")%string) with true.
  cbv iota.
  change (arg "name" (step_env w g m k st) [("name", [Lit d]); ("path", [Lit p])])
    with (d ++ "")%string.
  rewrite string_app_nil.
  destruct (assoc d (js_store st)); [reflexivity|discriminate].
Qed.

Lemma calm_keeps_going g m store l :
  Forall (fine_step store) l ->
  forall i st, js_ok st = true -> js_store st = store ->
  js_ok (run_steps calm g m i l st) = true /\
  js_store (run_steps calm g m i l st) = store.
Proof.
  induction 1 as [|s l [Hif Hs] _ IH]; intros i st Hok Hst; simpl; [now split|].
  apply IH.
  - unfold run_step. rewrite (unconditional_step_runs calm g m i s st Hif), Hok.
    change (cancelled calm i) with false. simpl andb. cbv iota.
    destruct (s_action s) as [sh body|act args].
    + specialize (Hs (cmd_wrote calm i) (mkFs EmptyString (files (js_fs st)))).
      change (cmd_status calm i) with (fun _ : list string => 0).
      destruct (run_script _ _ body _) as [code fs']. simpl in Hs. subst code.
      reflexivity.
    + destruct Hs as [Hup Hdown]. unfold run_action.
      change (action_ok calm i) with true. simpl negb. cbv iota. rewrite Hup.
      destruct (act =? "actions/download-artifact@v4")%string eqn:Hd; [|reflexivity].
      specialize (Hdown (step_env calm g m i st) eq_refl). unfold has_artifact in Hdown.
      rewrite Hst. destruct (assoc _ store); [reflexivity|discriminate].
  - unfold run_step. rewrite (unconditional_step_runs calm g m i s st Hif), Hok.
    change (cancelled calm i) with false. simpl andb. cbv iota.
    destruct (s_action s) as [sh body|act args].
    + destruct (run_script _ _ body _) as [code fs']. destruct (code =? 0); exact Hst.
    + destruct Hs as [Hup Hdown]. unfold run_action.
      change (action_ok calm i) with true. simpl negb. cbv iota. rewrite Hup.
      destruct (act =? "actions/download-artifact@v4")%string; [|exact Hst].
      simpl. rewrite Hst. destruct (assoc _ store); simpl; first [reflexivity | exact Hst].
Qed.

(** X5. The aggregation job reaches "Upload to Coveralls" only if every
    one of the nine artifacts it asks for is among the artifacts of the
    run; and when they all are and nothing fails or cancels, the step is
    reached and succeeds. *)
Theorem aggregation_needs_all_artifacts :
  (forall w g store m d,
     executed (run_job w g store Deprecation_Messages_and_Coverage m) 14 = true ->
     In d (download_names g m) ->
     has_artifact d store = true) /\
  (forall g store m,
     forallb (fun d => has_artifact d store) (download_names g m) = true ->
     succeeded (run_job calm g store Deprecation_Messages_and_Coverage m) 14 = true).
Proof.
  split.
  - intros w g store m d Hex Hd. rewrite run_job_eq in Hex.
    assert (Hk : exists k p,
               2 <= k < 11 /\
               nth_error (j_steps Deprecation_Messages_and_Coverage) k = Some (download d p)).
    { simpl in Hd.
      destruct Hd as [<-|[<-|[<-|[<-|[<-|[<-|[<-|[<-|[<-|[]]]]]]]]]].
      - exists 2. eexists. split; [lia|reflexivity].
      - exists 3. eexists. split; [lia|reflexivity].
      - exists 4. eexists. split; [lia|reflexivity].
      - exists 5. eexists. split; [lia|reflexivity].
      - exists 6. eexists. split; [lia|reflexivity].
      - exists 7. eexists. split; [lia|reflexivity].
      - exists 8. eexists. split; [lia|reflexivity].
      - exists 9. eexists. split; [lia|reflexivity].
      - exists 10. eexists. split; [lia|reflexivity]. }
    destruct Hk as (k & p & Hk & Hn).
    destruct (runs_only_after_success w g m (j_steps Deprecation_Messages_and_Coverage)
                k 14 (download d p) _ (start store) eq_refl eq_refl ltac:(lia) Hn eq_refl
                eq_refl eq_refl Hex) as (Hok & Hc & Ho).
    set (stk := run_steps w g m 0 (firstn k (j_steps Deprecation_Messages_and_Coverage))
                  (start store)) in *.
    assert (Hs : js_store stk = store).
    { unfold stk. rewrite store_without_uploads; [reflexivity|].
      apply forallb_firstn. reflexivity. }
    rewrite <- Hs. now apply (download_outcome w g m k d p stk).
  - intros g store m H. rewrite run_job_eq.
    rewrite (succeeded_at_step calm g m (j_steps Deprecation_Messages_and_Coverage) 14 _
               (start store) eq_refl eq_refl).
    assert (Hfine : Forall (fine_step store)
                      (firstn 14 (j_steps Deprecation_Messages_and_Coverage))).
    { change (download_names g m)
        with ["ubuntu-latest-3.9"; "ubuntu-latest-3.10"; "ubuntu-latest-3.11";
              "ubuntu-latest-3.12"; "ubuntu-latest-3.13"; "macos-latest-3.9";
              "macos-latest-3.13"; "windows-latest-3.9"; "windows-latest-3.13"] in H.
      cbn [forallb] in H.
      repeat (apply andb_true_iff in H as [?H H]).
      cbn [firstn j_steps Deprecation_Messages_and_Coverage].
      repeat (apply Forall_cons; [split; [reflexivity|]; cbn [s_action download];
                                  first [ intros fs; reflexivity
                                        | split; [reflexivity|]; intros en Hd;
                                          first [discriminate Hd | assumption] ] |]).
      apply Forall_nil. }
    destruct (calm_keeps_going g m store _ Hfine 0 (start store) eq_refl eq_refl)
      as [Hok _].
    unfold step_outcome.
    rewrite unconditional_step_runs by reflexivity. rewrite Hok. reflexivity.
Qed.

(** All nine artifacts are there and nothing fails. *)
Lemma aggregation_needs_all_artifacts_witness :
  succeeded (run_job calm push_main (map ml_artifact (expand (j_matrix MachineLearning)))
               Deprecation_Messages_and_Coverage [("python-version", yaml_plain "3.9")]) 14
  = true.
Proof.
  apply (proj2 aggregation_needs_all_artifacts). reflexivity.
Defined.

(** *** Stable tutorials and stable branches *)

Lemma stable_guard_eval g m st :
  truthy (eval (mkEnv g m st)
            (EAnd (EAnd (EEq (EMatrix "python-version") (num "3.9"))
                        (ENot (EStartsWith (EGithub "ref") (str "refs/heads/stable"))))
                  (ENot (EStartsWith (EGithub "base_ref") (str "stable/")))))
  = loose_eqb (matrix_lookup m "python-version") (VNum (mkDec 39 1)) && negb (on_stable g).
Proof.
  unfold on_stable, str, num. cbn [eval e_matrix e_github].
  change (github_lookup g "ref") with (VStr (ref g)).
  change (github_lookup g "base_ref") with (VStr (base_ref g)).
  cbn [to_string].
  change (lower "refs/heads/stable") with "refs/heads/stable".
  change (lower "stable/") with "stable/".
  change (match parse_dec "3.9" with Some d => VNum d | None => VNull end)
    with (VNum (mkDec 39 1)).
  destruct (loose_eqb _ _); cbn [truthy andb]; [|reflexivity].
  destruct (String.prefix "refs/heads/stable" (lower (ref g))); cbn [truthy negb orb andb];
    reflexivity.
Qed.

Lemma not_stable_eval g m st :
  truthy (eval (mkEnv g m st)
            (EAnd (ENot (EStartsWith (EGithub "ref") (str "refs/heads/stable")))
                  (ENot (EStartsWith (EGithub "base_ref") (str "stable/")))))
  = negb (on_stable g).
Proof.
  unfold on_stable, str. cbn [eval e_matrix e_github].
  change (github_lookup g "ref") with (VStr (ref g)).
  change (github_lookup g "base_ref") with (VStr (base_ref g)).
  cbn [to_string].
  change (lower "refs/heads/stable") with "refs/heads/stable".
  change (lower "stable/") with "stable/".
  destruct (String.prefix "refs/heads/stable" (lower (ref g))); cbn [truthy negb orb andb];
    reflexivity.
Qed.

Lemma prefix_nil s : String.prefix "" s = true.
Proof. now destruct s. Qed.

Lemma prefix_app p : forall s, String.prefix p s = true -> exists r, s = (p ++ r)%string.
Proof.
  induction p as [|c p IH]; intros s H.
  - exists s. reflexivity.
  - destruct s as [|x s]; [discriminate|]. simpl in H.
    destruct (ascii_dec c x) as [->|]; [|discriminate].
    destruct (IH s H) as [r ->]. exists r. reflexivity.
Qed.

(** X6. In the Tutorials job the steps "Run stable tutorials" and "Run
    upload stable tutorials" run only in an instance whose
    python-version equals 3.9, and only when the run is not on a stable
    branch; of the job's two combinations only (ubuntu-latest, 3.9)
    qualifies. *)
Theorem stable_tutorials_only_for_39 :
  (forall w g store m k,
     k = 7 \/ k = 8 ->
     executed (run_job w g store Tutorials m) k = true ->
     loose_eqb (matrix_lookup m "python-version") (VNum (mkDec 39 1)) = true /\
     on_stable g = false) /\
  map (fun m => loose_eqb (matrix_lookup m "python-version") (VNum (mkDec 39 1)))
      (expand (j_matrix Tutorials))
  = [true; false].
Proof.
  split; [|reflexivity].
  intros w g store m k Hk Hex. rewrite run_job_eq in Hex.
  assert (Hs : exists s, nth_error (j_steps Tutorials) k = Some s /\
                 s_if s = Some (EAnd (EAnd (EEq (EMatrix "python-version") (num "3.9"))
                                   (ENot (EStartsWith (EGithub "ref") (str "refs/heads/stable"))))
                             (ENot (EStartsWith (EGithub "base_ref") (str "stable/"))))).
  { destruct Hk as [->| ->]; eexists; split; reflexivity. }
  destruct Hs as (s & Hn & Hif).
  rewrite (executed_at_step w g m _ k s (start store) Hn eq_refl) in Hex.
  rewrite (guarded_step_runs w g m k s _ _ Hif eq_refl), stable_guard_eval in Hex.
  apply andb_true_iff in Hex as [_ Hex]. apply andb_true_iff in Hex as [H1 H2].
  split; [assumption|]. now apply negb_true_iff.
Qed.

Lemma stable_tutorials_only_for_39_witness :
  loose_eqb (matrix_lookup ubuntu_39 "python-version") (VNum (mkDec 39 1)) = true /\
  on_stable push_main = false.
Proof.
  apply (proj1 stable_tutorials_only_for_39 calm push_main [] ubuntu_39 7);
    [left|]; reflexivity.
Defined.

(** X7. A push to a branch that the trigger pattern [stable/**] admits,
    or a pull request against such a branch, counts as a stable run; in
    a stable run the step [install-main-dependencies] is skipped in
    Checks, MachineLearning and Tutorials, and the stable tutorials are
    neither built nor uploaded. *)
Theorem stable_runs_skip_main_dependencies :
  (forall g b,
     glob_match "stable/**" b = true ->
     ref g = ("refs/heads/" ++ b)%string \/ base_ref g = b ->
     on_stable g = true) /\
  (forall w g store m,
     on_stable g = true ->
     executed (run_job w g store Checks m) 3 = false /\
     executed (run_job w g store MachineLearning m) 2 = false /\
     executed (run_job w g store Tutorials m) 2 = false /\
     executed (run_job w g store Tutorials m) 7 = false /\
     executed (run_job w g store Tutorials m) 8 = false) /\
  (option_map step_label (nth_error (j_steps Checks) 3)
   = Some "./.github/actions/install-main-dependencies" /\
   option_map step_label (nth_error (j_steps MachineLearning) 2)
   = Some "./.github/actions/install-main-dependencies" /\
   option_map step_label (nth_error (j_steps Tutorials) 2)
   = Some "./.github/actions/install-main-dependencies").
Proof.
  split; [|split; [|repeat split]].
  - intros g b Hb Hg. rewrite stable_pattern in Hb.
    apply prefix_app in Hb as [r ->]. unfold on_stable.
    destruct Hg as [-> | ->].
    + reflexivity.
    + change (String.prefix "stable/" (lower ("stable/" ++ r)%string))
        with (String.prefix "" (lower r)).
      rewrite prefix_nil. apply orb_true_r.
  - intros w g store m Hst. rewrite !run_job_eq.
    assert (Hinst : forall j k s st,
              nth_error (j_steps j) k = Some s ->
              s_if s = Some (EAnd (ENot (EStartsWith (EGithub "ref") (str "refs/heads/stable")))
                                  (ENot (EStartsWith (EGithub "base_ref") (str "stable/")))) ->
              executed (run_steps w g m 0 (j_steps j) (start st)) k = false).
    { intros j k s st Hn Hif.
      rewrite (executed_at_step w g m _ k s (start st) Hn eq_refl).
      rewrite (guarded_step_runs w g m k s _ _ Hif eq_refl), not_stable_eval, Hst.
      now rewrite andb_false_r. }
    assert (Hstab : forall k s,
              nth_error (j_steps Tutorials) k = Some s ->
              s_if s = Some (EAnd (EAnd (EEq (EMatrix "python-version") (num "3.9"))
                                   (ENot (EStartsWith (EGithub "ref") (str "refs/heads/stable"))))
                             (ENot (EStartsWith (EGithub "base_ref") (str "stable/")))) ->
              executed (run_steps w g m 0 (j_steps Tutorials) (start store)) k = false).
    { intros k s Hn Hif.
      rewrite (executed_at_step w g m _ k s (start store) Hn eq_refl).
      rewrite (guarded_step_runs w g m k s _ _ Hif eq_refl), stable_guard_eval, Hst.
      now rewrite !andb_false_r. }
    repeat split.
    + eapply Hinst; reflexivity.
    + eapply Hinst; reflexivity.
    + eapply Hinst; reflexivity.
    + eapply Hstab; reflexivity.
    + eapply Hstab; reflexivity.
Qed.

Lemma stable_runs_skip_main_dependencies_witness :
  on_stable push_stable = true /\
  executed (run_job calm push_stable [] MachineLearning ubuntu_39) 2 = false.
Proof.
  assert (H : on_stable push_stable = true).
  { apply (proj1 stable_runs_skip_main_dependencies push_stable "stable/0.7");
      [reflexivity | left; reflexivity]. }
  split; [exact H|].
  apply (proj1 (proj2 stable_runs_skip_main_dependencies) calm push_stable [] ubuntu_39 H).
Defined.

(** *** The documentation artifact of Checks *)

Lemma run_script_nil ext wrote fs : run_script ext wrote [] fs = (0, fs).
Proof. reflexivity. Qed.

Lemma run_script_cmd ext wrote argv body fs :
  run_script ext wrote (Cmd argv :: body) fs
  = if status_of ext argv =? 0 then run_script ext wrote body (effect argv fs)
    else (status_of ext argv,
          if wrote argv then mkFs (cwd fs) (files (effect argv fs)) else fs).
Proof. simpl. destruct (status_of ext argv =? 0); reflexivity. Qed.

Lemma run_script_append ext wrote argv f body fs :
  run_script ext wrote (Append (Cmd argv) f :: body) fs
  = let fs1 := if status_of ext argv =? 0 then effect argv fs
               else if wrote argv then mkFs (cwd fs) (files (effect argv fs)) else fs in
    let fs2 := mkFs (cwd fs1) (add_file (resolve (cwd fs1) f) (files fs1)) in
    if status_of ext argv =? 0 then run_script ext wrote body fs2
    else (status_of ext argv, fs2).
Proof. reflexivity. Qed.

(** Case analysis on the exit statuses of the commands of a script, in
    the order in which the script runs them. *)
Ltac split_status :=
  rewrite ?run_script_cmd, ?run_script_append, ?run_script_nil;
  cbn [status_of];
  cbn [fst snd];
  repeat (first
    [ match goal with
      | H : (?c =? 0) = _ |- context [?c =? 0] => rewrite H
      end
    | match goal with
      | |- context [cmd_status ?w ?i ?a =? 0] => destruct (cmd_status w i a =? 0) eqn:?
      end ];
    cbv beta iota zeta; cbn [fst snd]);
  repeat match goal with
         | |- context [cmd_wrote ?w ?i ?a] => destruct (cmd_wrote w i a) eqn:?
         end.

Section Documentation.

Variables (w : world) (g : github_ctx) (m : combination).

(** Before "Run make html" nothing is stored, and the only file the
    steps may have written is the release-notes configuration. *)
Lemma checks_before_html :
  let st10 := run_steps w g m 0 (firstn 10 (j_steps Checks)) (start []) in
  js_store st10 = [] /\
  (files (js_fs st10) = [] \/ files (js_fs st10) = ["releasenotes/config.yaml"]).
Proof.
  intros st10. split.
  { apply (store_without_uploads w g m (firstn 10 (j_steps Checks)) eq_refl). }
  unfold st10. clear st10.
  change (firstn 10 (j_steps Checks))
    with (firstn 5 (j_steps Checks)
          ++ [nth 5 (j_steps Checks) (download "" "")]
          ++ [nth 6 (j_steps Checks) (download "" "")]
          ++ [nth 7 (j_steps Checks) (download "" "")]
          ++ skipn 8 (firstn 10 (j_steps Checks))).
  rewrite !run_steps_app.
  destruct (quiet_steps w g m (firstn 5 (j_steps Checks)) eq_refl 0 (start [])) as [Hf _].
  set (st5 := run_steps w g m 0 (firstn 5 (j_steps Checks)) (start [])) in *.
  simpl in Hf.
  match goal with
  | |- context [run_steps w g m ?i [nth 5 ?l ?d] st5] =>
      change (run_steps w g m i [nth 5 l d] st5) with (run_step w g m 5 (nth 5 l d) st5)
  end.
  set (st6 := run_step w g m 5 _ st5).
  assert (H6 : files (js_fs st6) = [] \/ files (js_fs st6) = ["releasenotes/config.yaml"]).
  { unfold st6, run_step. destruct (step_runs w g m 5 _ st5); [|left; exact Hf].
    rewrite Hf. cbn [nth j_steps Checks s_action]. split_status; vm_compute; auto. }
  clearbody st6. clear st5 Hf.
  match goal with
  | |- context [run_steps w g m ?i [nth 6 ?l ?d] st6] =>
      change (run_steps w g m i [nth 6 l d] st6) with (run_step w g m 6 (nth 6 l d) st6)
  end.
  set (st7 := run_step w g m 6 _ st6).
  assert (H7 : files (js_fs st7) = files (js_fs st6))
    by (apply (proj1 (quiet_step w g m 6 (nth 6 (j_steps Checks) (download "" "")) st6
                        eq_refl))).
  rewrite <- H7 in H6. clearbody st7. clear st6 H7.
  match goal with
  | |- context [run_steps w g m ?i [nth 7 ?l ?d] st7] =>
      change (run_steps w g m i [nth 7 l d] st7) with (run_step w g m 7 (nth 7 l d) st7)
  end.
  set (st8 := run_step w g m 7 _ st7).
  assert (H8 : files (js_fs st8) = files (js_fs st7)).
  { unfold st8, run_step. destruct (step_runs w g m 7 _ st7); [|reflexivity].
    cbn [nth j_steps Checks s_action]. split_status; reflexivity. }
  rewrite <- H8 in H6. clearbody st8. clear st7 H8.
  match goal with
  | |- context [run_steps w g m ?i ?l st8] =>
      destruct (quiet_steps w g m l eq_refl i st8) as [H9 _]
  end.
  now rewrite H9.
Qed.

(** "Run make html" leaves the documentation archive behind when [tar]
    has written it, also when the step fails. *)
Lemma html_step_files st fl :
  files (js_fs st) = fl ->
  fl = [] \/ fl = ["releasenotes/config.yaml"] ->
  js_store (run_step w g m 10 html_step st) = js_store st /\
  files (js_fs (run_step w g m 10 html_step st))
  = (if step_runs w g m 10 html_step st && archive_written w
     then fl ++ [doc_archive] else fl) /\
  (step_outcome w g m 10 html_step st = Succeeded -> archive_written w = true).
Proof.
  intros Hf Hfl. split; [apply store_after_step; left; reflexivity|].
  unfold run_step, step_outcome, archive_written, html_cmds, tar_cmd.
  destruct (step_runs w g m 10 html_step st); [|split; [exact Hf|discriminate]].
  rewrite Hf. cbn [html_step nth j_steps Checks s_action forallb].
  destruct Hfl as [-> | ->]; split_status;
    split; first [reflexivity | discriminate].
Qed.

Lemma doc_upload_store st fl :
  js_store st = [] -> files (js_fs st) = fl ->
  fl = [] \/ fl = ["releasenotes/config.yaml"] \/
  fl = [doc_archive] \/ fl = ["releasenotes/config.yaml"; doc_archive] ->
  js_store (run_step w g m 11 doc_upload_step st)
  = if outcome_eqb (step_outcome w g m 11 doc_upload_step st) Succeeded
       && existsb (String.eqb doc_archive) fl
    then [("documentation", ["documentation.tar.gz"])] else [].
Proof.
  intros Hs Hf Hfl. unfold run_step, step_outcome.
  destruct (step_runs w g m 11 doc_upload_step st); [|exact Hs].
  change (s_action doc_upload_step)
    with (Uses "actions/upload-artifact@v4"
            [("name", [Lit "documentation"]);
             ("path", [Lit "docs/_build/html/artifacts/documentation.tar.gz"])]).
  unfold run_action. destruct (action_ok w 11); [|exact Hs].
  unfold collect. rewrite Hs, Hf.
  destruct Hfl as [-> |[-> |[-> | ->]]]; reflexivity.
Qed.

End Documentation.

(** X8. In Checks the upload of the documentation carries
    [if: ${{ !cancelled() }}], not a condition on "Run make html": the
    run holds the artifact [documentation] exactly when the upload step
    succeeds and, in "Run make html", every command before [tar] has
    exited with 0 and [tar] has written the archive.  This is so when
    "Run make html" succeeds, and also when [tar] writes the archive and
    then fails; a failure of [make html] itself leaves no artifact. *)
Theorem documentation_follows_archive :
  s_action html_step = Run "bash" (map Cmd (html_cmds ++ [tar_cmd])) /\
  forall w g m,
    uploads w g Checks m
    = (if succeeded (run_job w g [] Checks m) 11 && archive_written w
       then [("documentation", ["documentation.tar.gz"])] else []) /\
    (succeeded (run_job w g [] Checks m) 10 = true -> archive_written w = true) /\
    (cmd_status w 10 ["make"; "html"] <> 0 -> uploads w g Checks m = []).
Proof.
  split; [reflexivity|].
  intros w g m.
  assert (Hup : uploads w g Checks m
                = (if succeeded (run_job w g [] Checks m) 11 && archive_written w
                   then [("documentation", ["documentation.tar.gz"])] else []) /\
                (succeeded (run_job w g [] Checks m) 10 = true -> archive_written w = true)).
  { rewrite uploads_eq, !run_job_eq.
    rewrite (succeeded_at_step w g m (j_steps Checks) 10 html_step (start []) eq_refl eq_refl).
    rewrite (succeeded_at_step w g m (j_steps Checks) 11 doc_upload_step (start []) eq_refl eq_refl).
    rewrite (run_steps_split w g m (j_steps Checks) 10 (start [])) by (simpl; lia).
    change (firstn 11 (j_steps Checks)) with (firstn 10 (j_steps Checks) ++ [html_step]).
    rewrite run_steps_app.
    destruct (checks_before_html w g m) as [Hs Hf].
    set (st10 := run_steps w g m 0 (firstn 10 (j_steps Checks)) (start [])) in *.
    change (0 + List.length (firstn 10 (j_steps Checks))) with 10.
    change (run_steps w g m 10 [html_step] st10) with (run_step w g m 10 html_step st10).
    change (skipn 10 (j_steps Checks))
      with [html_step; doc_upload_step; nth 12 (j_steps Checks) (download "" "")].
    cbn [run_steps]. rewrite store_after_step by (left; reflexivity).
    destruct (html_step_files w g m st10 _ eq_refl Hf) as (Hs11 & Hf11 & Hok).
    set (st11 := run_step w g m 10 html_step st10) in *.
    rewrite Hs in Hs11.
    split.
    - rewrite (doc_upload_store w g m st11 _ Hs11 Hf11).
      + destruct (outcome_eqb (step_outcome w g m 11 doc_upload_step st11) Succeeded) eqn:E11;
          [|reflexivity].
        assert (C11 : cancelled w 11 = false).
        { unfold step_outcome in E11.
          rewrite (not_cancelled_runs w g m 11 doc_upload_step st11 eq_refl) in E11.
          destruct (cancelled w 11); [simpl in E11; discriminate E11 | reflexivity]. }
        assert (C10 : cancelled w 10 = false).
        { destruct (cancelled w 10) eqn:C; [|reflexivity].
          apply (cancelled_mono w 10 11) in C; [congruence | lia]. }
        rewrite (not_cancelled_runs w g m 10 html_step st10 eq_refl), C10.
        cbn [negb andb].
        destruct (archive_written w); destruct Hf as [-> | ->]; reflexivity.
      + destruct (step_runs w g m 10 html_step st10 && archive_written w);
          destruct Hf as [-> | ->]; simpl; auto.
    - intros H. apply Hok.
      destruct (step_outcome w g m 10 html_step st10); [reflexivity|discriminate H..]. }
  destruct Hup as [Hup Hok]. split; [exact Hup|]. split; [exact Hok|].
  intros Hmake. rewrite Hup.
  assert (Hno : archive_written w = false).
  { unfold archive_written, html_cmds. cbn [forallb].
    apply Nat.eqb_neq in Hmake. rewrite Hmake.
    rewrite andb_false_r. reflexivity. }
  rewrite Hno, andb_false_r. reflexivity.
Qed.

(** In a run without failures the archive is written; in a run in which
    [tar] writes the archive and exits with 2, "Run make html" fails and
    the artifact is stored all the same; in a run in which [make html]
    fails nothing is stored. *)
Lemma documentation_follows_archive_witness :
  archive_written calm = true /\
  outcome_at (run_job tar_fails push_main [] Checks ubuntu_39) 10 = Some Failed /\
  uploads tar_fails push_main Checks ubuntu_39 = [("documentation", ["documentation.tar.gz"])] /\
  uploads html_fails push_main Checks ubuntu_39 = [].
Proof.
  split.
  { apply (proj1 (proj2 (proj2 documentation_follows_archive calm push_main ubuntu_39))).
    vm_compute. reflexivity. }
  split; [vm_compute; reflexivity|].
  split.
  - rewrite (proj1 (proj2 documentation_follows_archive tar_fails push_main ubuntu_39)).
    vm_compute. reflexivity.
  - apply (proj2 (proj2 (proj2 documentation_follows_archive html_fails push_main ubuntu_39))).
    vm_compute. discriminate.
Defined.

(** *** Further facts on job order *)

Lemma main_job_ids j :
  In j (w_jobs main) -> j_id j = "Deprecation_Messages_and_Coverage" ->
  j = Deprecation_Messages_and_Coverage.
Proof.
  simpl. intros [<-|[<-|[<-|[<-|[]]]]] H; try discriminate H. reflexivity.
Qed.

(** X9. If an instance of Checks, MachineLearning or Tutorials concludes
    otherwise than with success (it fails, is cancelled or is skipped),
    the aggregation job has not started before and does not start later
    in the run. *)
Theorem failed_prerequisite_blocks_aggregation :
  forall tr st,
    trace (w_jobs main) init tr st ->
    forall p i r,
      In p [Checks; MachineLearning; Tutorials] -> i < instances p ->
      st (j_id p) i = Done r -> r <> CSuccess ->
      (forall k, ~ In (Start "Deprecation_Messages_and_Coverage" k) tr) /\
      (forall tr' st', trace (w_jobs main) st tr' st' ->
                       forall k, ~ In (Start "Deprecation_Messages_and_Coverage" k) tr').
Proof.
  intros tr st Htr p i r Hp Hi Hd Hr.
  assert (Hblock : forall s0 tr0 s1,
            trace (w_jobs main) s0 tr0 s1 ->
            forall k, In (Start "Deprecation_Messages_and_Coverage" k) tr0 ->
            s1 (j_id p) i = Done CSuccess).
  { intros s0 tr0 s1 H0 k Hin.
    apply in_split in Hin as (pre & post & ->).
    apply trace_app_inv in H0 as (sa & _ & Hrest).
    pose proof Hrest as Hrest'.
    apply trace_cons_inv in Hrest' as (sb & Hstart & _).
    assert (Hsucc : sa (j_id p) i = Done CSuccess).
    { inversion Hstart as [s j k0 Hj Hk Hw Hneeds E1 E2 E3| | |]; subst.
      apply main_job_ids in Hj; [|assumption]. subst j.
      apply Hneeds; [| |assumption].
      - simpl in *. intuition.
      - simpl in Hp. destruct Hp as [<-|[<-|[<-|[]]]]; simpl; auto. }
    now apply (done_stable_trace (w_jobs main) sa _ s1 Hrest (j_id p) i CSuccess). }
  split.
  - intros k Hin. specialize (Hblock init tr st Htr k Hin). congruence.
  - intros tr' st' Htr' k Hin. specialize (Hblock st tr' st' Htr' k Hin).
    destruct (done_stable_trace (w_jobs main) st tr' st' Htr' (j_id p) i r Hd) as [Hd' _].
    congruence.
Qed.

Lemma failed_prerequisite_blocks_aggregation_witness :
  ~ In (Start "Deprecation_Messages_and_Coverage" 0) failing_run.
Proof.
  destruct (replay (w_jobs main) init failing_run) as [st|] eqn:E; [|discriminate E].
  assert (Hst : st "MachineLearning" 3 = Done CFailure).
  { vm_compute in E. injection E as <-. reflexivity. }
  apply replay_sound in E.
  apply (proj1 (failed_prerequisite_blocks_aggregation failing_run st E
                  MachineLearning 3 CFailure (or_intror (or_introl eq_refl))
                  (proj1 (Nat.ltb_lt 3 (instances MachineLearning)) eq_refl)
                  Hst ltac:(discriminate)) 0).
Defined.

(** *** Concurrency groups of different branches *)






(** *** The grid of the notebook *)

(** X11. For every length [n] of the grid axes the notebook builds the
    grid as two [n] x [n] arrays, stacks them into [n * n] rows of two
    features, and reshapes the [n * n] predicted labels back to the
    shape of the grid, so that the reshape never fails. *)
Theorem notebook_grid_shapes :
  forall n,
  exists st,
    Notebook.run_cells n Notebook.cells = Notebook.Ok st /\
    assoc "grid_x" (Notebook.vars st) = Some (Notebook.PArr [n; n]) /\
    assoc "grid_y" (Notebook.vars st) = Some (Notebook.PArr [n; n]) /\
    assoc "meshgrid_features" (Notebook.vars st) = Some (Notebook.PArr [n * n; 2]) /\
    assoc "meshgrid_colors" (Notebook.vars st) = Some (Notebook.PArr [n; n]).
Proof.
  intros n. eexists. split.
  - unfold Notebook.run_cells. cbn -[Nat.mul]. rewrite !Nat.mul_1_r, Nat.eqb_refl.
    cbn -[Nat.mul]. rewrite ?Nat.mul_1_r, ?Nat.eqb_refl. cbn -[Nat.mul]. reflexivity.
  - repeat split.
Qed.
